(** * Heart-Disease-Prediction: the Streamlit front end [app.py]

    A shallow embedding of [app.py] and the properties of its form, its
    categorical encoding, its two charts and its CSV report.

    The script is one top-to-bottom run of Streamlit: it unpickles the
    classifier, draws the form, and, when the form was submitted, encodes
    the inputs, calls the classifier and draws the outcome.  We model one
    run as a computation in a writer/exception monad: the trace lists the
    calls made to Streamlit and to the classifier, in program order; the
    outcome says whether the script ran to its end, was halted by
    [st.stop()], or died on a Python exception. *)

From Stdlib Require Import ZArith Floats String List Bool Lia.
From stdpp Require Import base option list gmap strings.

Local Open Scope string_scope.
Local Open Scope list_scope.
Local Open Scope Z_scope.

(** ** Python values *)

(** The numbers of the script: Python [int] (and numpy [int64] labels) are
    integers, Python [float] (and numpy [float64]) are binary64 floats. *)
Inductive num : Type :=
| NInt (z : Z)
| NFloat (f : float).

(** The exceptions of a run.  [except Exception] catches every exception
    but those that derive from [BaseException] only ([KeyboardInterrupt],
    [SystemExit], [GeneratorExit]). *)
Inductive py_exc : Type :=
| KeyError (key : string)
| IndexError
| ValueError
| OtherException (name : string)
| BaseOnly (name : string).

Definition is_Exception (e : py_exc) : bool :=
  match e with
  | BaseOnly _ => false
  | _ => true
  end.

(** A call that returns or raises. *)
Inductive attempt (A : Type) : Type :=
| Returns (a : A)
| Throws (e : py_exc).
Arguments Returns {A} a.
Arguments Throws {A} e.

#[export] Instance attempt_ret : MRet attempt := fun _ a => Returns a.
#[export] Instance attempt_bind : MBind attempt := fun _ _ f m =>
  match m with
  | Returns a => f a
  | Throws e => Throws e
  end.

(** [d[k]] on a dict: the value, or [KeyError]. *)
Definition getitem (d : gmap string Z) (k : string) : attempt Z :=
  match d !! k with
  | Some v => Returns v
  | None => Throws (KeyError k)
  end.

(** [xs[i]] on a sequence, for an index that is not negative. *)
Definition index {A : Type} (xs : list A) (i : nat) : attempt A :=
  match xs !! i with
  | Some x => Returns x
  | None => Throws IndexError
  end.

(** The float of a Python [int] operand of a float operation (exact below
    2^53, which covers the literals of the script). *)
Definition float_of_int (z : Z) : float :=
  if z <? 0 then PrimFloat.opp (PrimFloat.of_uint63 (Uint63.of_Z (- z)))
  else PrimFloat.of_uint63 (Uint63.of_Z z).


(** ** pandas: the part of [DataFrame] the script uses *)

Record DataFrame : Type := mkDataFrame {
  columns : list string;
  rows : list (list num)
}.

(** [pd.DataFrame(data, columns=cols)] on a list of rows: every row must
    have one value per column. *)
Definition pd_DataFrame (data : list (list num)) (cols : list string)
  : attempt DataFrame :=
  if forallb (fun r => (length r =? length cols)%nat) data
  then Returns (mkDataFrame cols data)
  else Throws ValueError.

(** Position of a column label. *)
Fixpoint find_column (name : string) (cols : list string) : option nat :=
  match cols with
  | [] => None
  | c :: cols' =>
      if String.eqb c name then Some 0%nat
      else option_map S (find_column name cols')
  end.

(** [df[name] = v] with a scalar [v]: an existing column is overwritten in
    place, a new one is appended as the last column; the scalar is
    broadcast to every row. *)
Definition setitem (df : DataFrame) (name : string) (v : num) : DataFrame :=
  match find_column name (columns df) with
  | Some i => mkDataFrame (columns df) (map (fun r => <[i := v]> r) (rows df))
  | None => mkDataFrame (columns df ++ [name]) (map (fun r => r ++ [v]) (rows df))
  end.

(** [sep.join(fields)]. *)
Fixpoint join (sep : string) (fields : list string) : string :=
  match fields with
  | [] => ""
  | [f] => f
  | f :: fs => f +:+ sep +:+ join sep fs
  end.

(** [df.to_csv(index=False)]: the header line, then one line per row, each
    closed by the line terminator.  The labels and numbers of this script
    hold no comma, quote or line break, so no field is quoted.  How pandas
    prints a number ([repr_num]) and which line terminator it uses are the
    host's. *)
Definition to_csv (repr_num : num -> string) (lineterminator : string)
  (df : DataFrame) : string :=
  join "," (columns df) +:+ lineterminator +:+
  String.concat ""
    (map (fun r => join "," (map repr_num r) +:+ lineterminator) (rows df)).

(** ** plotly: the indicator of [go.Figure(go.Indicator(...))] *)

Record step : Type := mkStep {
  step_range : num * num;
  step_color : string
}.

Record indicator : Type := mkIndicator {
  mode : string;
  value : float;
  title_text : string;
  axis_range : num * num;
  bar_color : string;
  steps : list step
}.


(** ** matplotlib: the axes of the cholesterol chart *)

Record bar : Type := mkBar {
  bar_label : string;
  bar_width : Z;
  bar_colour : string
}.

Record vline : Type := mkVline {
  vline_x : Z;
  vline_color : string;
  vline_style : string;
  vline_label : string
}.

Record axes : Type := mkAxes {
  figsize : num * num;
  bars : list bar;
  vlines : list vline;
  xlabel : string;
  legend : bool
}.

Definition subplots (size : num * num) : axes := mkAxes size [] [] "" false.

Definition barh (ax : axes) (labels : list string) (widths : list Z)
  (color : string) : axes :=
  mkAxes (figsize ax)
    (bars ax ++ zip_with (fun l w => mkBar l w color) labels widths)
    (vlines ax) (xlabel ax) (legend ax).

Definition axvline (ax : axes) (x : Z) (color style label : string) : axes :=
  mkAxes (figsize ax) (bars ax) (vlines ax ++ [mkVline x color style label])
    (xlabel ax) (legend ax).

Definition set_xlabel (ax : axes) (l : string) : axes :=
  mkAxes (figsize ax) (bars ax) (vlines ax) l (legend ax).

Definition add_legend (ax : axes) : axes :=
  mkAxes (figsize ax) (bars ax) (vlines ax) (xlabel ax) true.

(** ** The classifier and the host of a run *)

(** The unpickled model: [predict] gives one label per row, [predict_proba]
    one list of class probabilities per row; either may raise. *)
Record classifier : Type := mkClassifier {
  predict : DataFrame -> attempt (list Z);
  predict_proba : DataFrame -> attempt (list (list float))
}.

(** What the script finds around it: the result of
    [pkl.load(open('model_random.pkl', 'rb'))], the number printer and the
    line terminator of [to_csv], and [round] on a numpy float. *)
Record host : Type := mkHost {
  pkl_load : attempt classifier;
  repr_num : num -> string;
  linesep : string;
  py_round : float -> Z -> float
}.

(** What the user did in the browser before this run, by widget label: the
    number typed in a number input, the position chosen in a select box,
    the buttons pressed.  A widget the user left alone has no entry. *)
Record session : Type := mkSession {
  typed_int : gmap string Z;
  typed_float : gmap string float;
  picked : gmap string nat;
  pressed : gset string
}.

(** ** Streamlit: widgets, trace and control *)

Record int_input : Type := mkIntInput {
  ii_label : string;
  ii_min : Z;
  ii_max : Z;
  ii_value : Z
}.

Record float_input : Type := mkFloatInput {
  fi_label : string;
  fi_min : float;
  fi_max : float;
  fi_value : float
}.

Record select : Type := mkSelect {
  sb_label : string;
  sb_options : list string
}.

(** The fixed HTML fragments the script passes to [st.markdown]. *)
Inductive markup : Type :=
| css_block
| page_heading
| details_title
| verdict_disease
| verdict_healthy
| cholesterol_heading
| report_ready.

(** The calls a run makes to Streamlit, [time] and the classifier. *)
Inductive call : Type :=
| st_error (msg : string)
| st_set_page_config (page_title layout : string)
| st_markdown (m : markup)
| st_form (key : string)
| st_columns (n : Z)
| st_number_input (w : int_input)
| st_number_input_float (w : float_input)
| st_selectbox (w : select)
| st_form_submit_button (label : string)
| spinner_show (msg : string)
| spinner_hide
| time_sleep (secs : Z)
| model_predict (X : DataFrame)
| model_predict_proba (X : DataFrame)
| st_balloons
| st_plotly_chart (fig : indicator)
| st_pyplot (fig : axes)
| st_download_button (label data file_name mime : string).

(** How a run, or a part of it, ends. *)
Inductive outcome (A : Type) : Type :=
| Done (a : A)
| Halted
| Died (e : py_exc).
Arguments Done {A} a.
Arguments Halted {A}.
Arguments Died {A} e.

(** A piece of script: the calls it made, and how it ended. *)
Definition script (A : Type) : Type := list call * outcome A.

#[export] Instance script_ret : MRet script := fun _ a => ([], Done a).
#[export] Instance script_bind : MBind script := fun _ _ f m =>
  match m.2 with
  | Done a => (m.1 ++ (f a).1, (f a).2)
  | Halted => (m.1, Halted)
  | Died e => (m.1, Died e)
  end.

Definition emit (c : call) : script unit := ([c], Done tt).

Definition lift {A : Type} (a : attempt A) : script A :=
  match a with
  | Returns x => ([], Done x)
  | Throws e => ([], Died e)
  end.

(** [st.stop()]: nothing after it runs. *)
Definition st_stop {A : Type} : script A := ([], Halted).

(** [try: body  except Exception as e: handler]. *)
Definition try_except {A : Type} (body : script A)
  (handler : py_exc -> script A) : script A :=
  match body.2 with
  | Died e =>
      if is_Exception e
      then (body.1 ++ (handler e).1, (handler e).2)
      else body
  | _ => body
  end.

(** [with st.spinner(msg): body]: the spinner goes away however the body
    ends. *)
Definition with_spinner {A : Type} (msg : string) (body : script A)
  : script A :=
  (spinner_show msg :: body.1 ++ [spinner_hide], body.2).

(** The widget keeps a typed number only when it lies within its bounds;
    otherwise it stays at its value, which starts as [value]. *)
Definition int_accepts (w : int_input) (z : Z) : bool :=
  (ii_min w <=? z) && (z <=? ii_max w).

Definition float_accepts (w : float_input) (f : float) : bool :=
  PrimFloat.leb (fi_min w) f && PrimFloat.leb f (fi_max w).

Definition int_state (s : session) (w : int_input) : Z :=
  match typed_int s !! ii_label w with
  | Some z => if int_accepts w z then z else ii_value w
  | None => ii_value w
  end.

Definition float_state (s : session) (w : float_input) : float :=
  match typed_float s !! fi_label w with
  | Some f => if float_accepts w f then f else fi_value w
  | None => fi_value w
  end.

(** A select box starts on its first option and only ever holds one of
    its options. *)
Definition select_state (s : session) (w : select) : string :=
  match picked s !! sb_label w with
  | Some i => nth i (sb_options w) (hd "" (sb_options w))
  | None => hd "" (sb_options w)
  end.

Definition number_input (s : session) (w : int_input) : script Z :=
  emit (st_number_input w) ;; mret (int_state s w).

Definition number_input_float (s : session) (w : float_input) : script float :=
  emit (st_number_input_float w) ;; mret (float_state s w).

Definition selectbox (s : session) (w : select) : script string :=
  emit (st_selectbox w) ;; mret (select_state s w).

Definition form_submit_button (s : session) (label : string) : script bool :=
  emit (st_form_submit_button label) ;; mret (bool_decide (label ∈ pressed s)).

(** ** [app.py] *)

(** *** Lines 8-13: loading the model *)

Definition load_error_message : string :=
  "Error loading the model. Please make sure 'model_random.pkl' is in the same folder.".

Definition load_model (h : host) : script classifier :=
  try_except (lift (pkl_load h))
    (fun _ => emit (st_error load_error_message) ;; st_stop).

(** *** Lines 33-56: the form *)

Definition age_input : int_input := mkIntInput "Age" 1 120 30.
Definition trestbps_input : int_input :=
  mkIntInput "Resting Blood Pressure (mm Hg)" 80 200 120.
Definition chol_input : int_input := mkIntInput "Cholesterol (mg/dl)" 100 600 200.
Definition thalach_input : int_input :=
  mkIntInput "Max Heart Rate Achieved" 60 220 150.
Definition oldpeak_input : float_input :=
  mkFloatInput "ST Depression (oldpeak)" 0.0%float 10.0%float 1.0%float.

Definition sex_select : select := mkSelect "Gender" ["Male"; "Female"].
Definition cp_select : select :=
  mkSelect "Chest Pain Type"
    ["Typical Angina"; "Atypical Angina"; "Non Anginal Pain"; "Asymptomatic"].
Definition fbs_select : select :=
  mkSelect "Fasting Blood Sugar > 120 mg/dl" ["False"; "True"].
Definition restecg_select : select :=
  mkSelect "Resting ECG Result"
    ["Abnormality"; "Normal"; "Left ventricular hypertrophy"].
Definition exercise_select : select :=
  mkSelect "Exercise Induced Angina" ["No pain"; "Pain"].
Definition slope_select : select :=
  mkSelect "Slope of ST Segment" ["Downsloping"; "Upsloping"; "Flat"].
Definition ca_select : select :=
  mkSelect "Number of Major Vessels Colored"
    ["Normal"; "One vessel colored"; "Two vessels colored";
     "Three vessels colored"; "Four vessel colored"].
Definition thal_select : select :=
  mkSelect "Thalassemia" ["Reversible defect"; "Normal"; "Fixed Defect"; "Unknown"].

(** The values the script holds after the form. *)
Record PatientInput : Type := mkPatientInput {
  age : Z;
  sex : string;
  cp : string;
  fbs : string;
  restecg : string;
  exercise : string;
  trestbps : Z;
  chol : Z;
  thalach : Z;
  oldpeak : float;
  slope : string;
  ca : string;
  thal : string
}.

(** The form, widget by widget in the order of the script ([col1], then
    [col2], then the widget below the columns), and its submit button. *)
Definition heart_form (s : session) : script (PatientInput * bool) :=
  emit (st_form "heart_form") ;;
  emit (st_columns 2) ;;
  v_age ← number_input s age_input ;
  v_sex ← selectbox s sex_select ;
  v_cp ← selectbox s cp_select ;
  v_fbs ← selectbox s fbs_select ;
  v_restecg ← selectbox s restecg_select ;
  v_exercise ← selectbox s exercise_select ;
  v_trestbps ← number_input s trestbps_input ;
  v_chol ← number_input s chol_input ;
  v_thalach ← number_input s thalach_input ;
  v_oldpeak ← number_input_float s oldpeak_input ;
  v_slope ← selectbox s slope_select ;
  v_ca ← selectbox s ca_select ;
  v_thal ← selectbox s thal_select ;
  submit_button ← form_submit_button s "Predict" ;
  mret (mkPatientInput v_age v_sex v_cp v_fbs v_restecg v_exercise
          v_trestbps v_chol v_thalach v_oldpeak v_slope v_ca v_thal,
        submit_button).

(** *** Lines 59-78: encoding *)

Definition sex_code (sex : string) : Z :=
  if String.eqb sex "Male" then 1 else 0.

Definition cp_map : gmap string Z :=
  <["Asymptomatic" := 0]> (<["Non Anginal Pain" := 2]>
    (<["Atypical Angina" := 1]> (<["Typical Angina" := 3]> ∅))).

Definition restecg_map : gmap string Z :=
  <["Left ventricular hypertrophy" := 2]>
    (<["Normal" := 1]> (<["Abnormality" := 0]> ∅)).

Definition exang_map : gmap string Z :=
  <["Pain" := 1]> (<["No pain" := 0]> ∅).

Definition slope_map : gmap string Z :=
  <["Flat" := 1]> (<["Upsloping" := 2]> (<["Downsloping" := 0]> ∅)).

Definition ca_map : gmap string Z :=
  <["Four vessel colored" := 4]> (<["Three vessels colored" := 3]>
    (<["Two vessels colored" := 2]> (<["One vessel colored" := 1]>
      (<["Normal" := 0]> ∅)))).

Definition thal_map : gmap string Z :=
  <["Unknown" := 3]> (<["Fixed Defect" := 0]>
    (<["Normal" := 1]> (<["Reversible defect" := 2]> ∅))).

(** [int(fbs == "True")]. *)
Definition fbs_code (fbs : string) : Z := Z.b2z (String.eqb fbs "True").

(** The single row of [input_data]; the look-ups run left to right. *)
Definition encode (p : PatientInput) : attempt (list num) :=
  c_cp ← getitem cp_map (cp p) ;
  c_restecg ← getitem restecg_map (restecg p) ;
  c_exang ← getitem exang_map (exercise p) ;
  c_slope ← getitem slope_map (slope p) ;
  c_ca ← getitem ca_map (ca p) ;
  c_thal ← getitem thal_map (thal p) ;
  mret [NInt (age p); NInt (trestbps p); NInt (chol p); NInt (thalach p);
        NFloat (oldpeak p);
        NInt (sex_code (sex p)); NInt c_cp; NInt (fbs_code (fbs p));
        NInt c_restecg; NInt c_exang;
        NInt c_slope; NInt c_ca; NInt c_thal].

Definition feature_columns : list string :=
  ["age"; "trestbps"; "chol"; "thalach"; "oldpeak";
   "encoded_sex"; "encoded_cp"; "encoded_fbs";
   "encoded_restecg"; "encoded_exang"; "encoded_slope";
   "encoded_ca"; "encoded_thal"].

Definition input_data (p : PatientInput) : attempt DataFrame :=
  row ← encode p ; pd_DataFrame [row] feature_columns.

(** *** Lines 80-84: prediction *)

Definition call_predict (m : classifier) (X : DataFrame) : script Z :=
  emit (model_predict X) ;;
  labels ← lift (predict m X) ;
  lift (index labels 0).

Definition call_predict_proba (m : classifier) (X : DataFrame) : script float :=
  emit (model_predict_proba X) ;;
  probs ← lift (predict_proba m X) ;
  first_row ← lift (index probs 0) ;
  lift (index first_row 1).

Definition analyse (m : classifier) (X : DataFrame) : script (Z * float) :=
  with_spinner "Analyzing health data..."
    (emit (time_sleep 2) ;;
     prediction ← call_predict m X ;
     probability ← call_predict_proba m X ;
     mret (prediction, probability)).

(** *** Lines 86-91: the verdict *)

Definition verdict (prediction : Z) : script unit :=
  if prediction =? 1 then emit (st_markdown verdict_disease)
  else emit (st_markdown verdict_healthy) ;; emit st_balloons.

(** *** Lines 93-105: the risk gauge *)

Definition low_band : step := mkStep (NInt 0, NFloat 0.5%float) "#c8f7c5".
Definition high_band : step := mkStep (NFloat 0.5%float, NInt 1) "#f9c0c0".

Definition risk_gauge (prediction : Z) (probability : float) : indicator :=
  mkIndicator "gauge+number" probability "Heart Disease Risk"
    (NInt 0, NInt 1)
    (if prediction =? 1 then "red" else "green")
    [low_band; high_band].

(** *** Lines 107-114: the cholesterol bar *)

Definition cholesterol_chart (chol : Z) : axes :=
  let ax := subplots (NInt 5, NFloat 1.5%float) in
  let ax := barh ax ["Cholesterol"] [chol]
              (if chol >? 200 then "salmon" else "seagreen") in
  let ax := axvline ax 200 "black" "--" "Normal Max" in
  let ax := set_xlabel ax "mg/dl" in
  add_legend ax.

(** *** Lines 116-125: the report *)

(** [report_df]: a copy of [input_data] with the two result columns. *)
Definition report_df (h : host) (X : DataFrame) (prediction : Z)
  (probability : float) : DataFrame :=
  let df := X in
  let df := setitem df "prediction" (NInt prediction) in
  setitem df "risk_percent"
    (NFloat (py_round h (PrimFloat.mul probability (float_of_int 100)) 2)).

(** The bytes handed to the download button.  The text of the report is
    ASCII, so its UTF-8 encoding is the text itself, byte for byte. *)
Definition report_csv (h : host) (X : DataFrame) (prediction : Z)
  (probability : float) : script string :=
  with_spinner "Preparing your report..."
    (emit (time_sleep 2) ;;
     mret (to_csv (repr_num h) (linesep h)
             (report_df h X prediction probability))).

Definition download_label : string := "📥 Download Report".

(** *** Lines 58-125: the body of [if submit_button:] *)

Definition on_submit (h : host) (m : classifier) (p : PatientInput)
  : script unit :=
  X ← lift (input_data p) ;
  r ← analyse m X ;
  verdict r.1 ;;
  emit (st_plotly_chart (risk_gauge r.1 r.2)) ;;
  emit (st_markdown cholesterol_heading) ;;
  emit (st_pyplot (cholesterol_chart (chol p))) ;;
  csv ← report_csv h X r.1 r.2 ;
  emit (st_download_button download_label csv "heart_risk_report.csv" "text/csv") ;;
  emit (st_markdown report_ready).

(** *** The whole script *)

Definition app (h : host) (s : session) : script unit :=
  model_random ← load_model h ;
  emit (st_set_page_config "Heart Disease Predictor" "centered") ;;
  emit (st_markdown css_block) ;;
  emit (st_markdown page_heading) ;;
  emit (st_markdown details_title) ;;
  '(p, submit_button) ← heart_form s ;
  if (submit_button : bool) then on_submit h model_random p else mret tt.

(** ** Reading a run *)

Definition trace {A : Type} (r : script A) : list call := r.1.
Definition ending {A : Type} (r : script A) : outcome A := r.2.

(** The values the form hands to the script, without the trace. *)
Definition read_form (s : session) : PatientInput :=
  mkPatientInput
    (int_state s age_input) (select_state s sex_select)
    (select_state s cp_select) (select_state s fbs_select)
    (select_state s restecg_select) (select_state s exercise_select)
    (int_state s trestbps_input) (int_state s chol_input)
    (int_state s thalach_input) (float_state s oldpeak_input)
    (select_state s slope_select) (select_state s ca_select)
    (select_state s thal_select).

Definition submitted (s : session) : bool := bool_decide ("Predict" ∈ pressed s).

Definition is_widget (c : call) : bool :=
  match c with
  | st_form _ | st_columns _ | st_number_input _ | st_number_input_float _
  | st_selectbox _ | st_form_submit_button _ => true
  | _ => false
  end.

Definition is_model_call (c : call) : bool :=
  match c with
  | model_predict _ | model_predict_proba _ => true
  | _ => false
  end.

Definition is_download (c : call) : bool :=
  match c with
  | st_download_button _ _ _ _ => true
  | _ => false
  end.

(** The files a run offers for download: data, file name, MIME type. *)
Definition downloads (t : list call) : list (string * string * string) :=
  omap (fun c => match c with
                 | st_download_button _ data file_name mime =>
                     Some (data, file_name, mime)
                 | _ => None
                 end) t.

(** The frames a run passes to the classifier's [predict]. *)
Definition predicted_on (t : list call) : list DataFrame :=
  omap (fun c => match c with model_predict X => Some X | _ => None end) t.

Definition gauges (t : list call) : list indicator :=
  omap (fun c => match c with st_plotly_chart g => Some g | _ => None end) t.

Definition pyplots (t : list call) : list axes :=
  omap (fun c => match c with st_pyplot a => Some a | _ => None end) t.

Definition errors (t : list call) : list string :=
  omap (fun c => match c with st_error m => Some m | _ => None end) t.

(** ** The categorical fields, one view for all eight *)

Inductive cat_field : Type :=
| Sex | Cp | Fbs | Restecg | Exercise | Slope | Ca | Thal.

Definition all_fields : list cat_field :=
  [Sex; Cp; Fbs; Restecg; Exercise; Slope; Ca; Thal].

(** The select box of a field. *)
Definition field_select (f : cat_field) : select :=
  match f with
  | Sex => sex_select
  | Cp => cp_select
  | Fbs => fbs_select
  | Restecg => restecg_select
  | Exercise => exercise_select
  | Slope => slope_select
  | Ca => ca_select
  | Thal => thal_select
  end.

(** The labels a field offers. *)
Definition options (f : cat_field) : list string := sb_options (field_select f).

(** The label of a field in the values the script holds. *)
Definition field_value (f : cat_field) (p : PatientInput) : string :=
  match f with
  | Sex => sex p
  | Cp => cp p
  | Fbs => fbs p
  | Restecg => restecg p
  | Exercise => exercise p
  | Slope => slope p
  | Ca => ca p
  | Thal => thal p
  end.

(** The expression that encodes a field in [input_data]. *)
Definition field_code (f : cat_field) (label : string) : attempt Z :=
  match f with
  | Sex => Returns (sex_code label)
  | Cp => getitem cp_map label
  | Fbs => Returns (fbs_code label)
  | Restecg => getitem restecg_map label
  | Exercise => getitem exang_map label
  | Slope => getitem slope_map label
  | Ca => getitem ca_map label
  | Thal => getitem thal_map label
  end.

(** ** The parts of the trace *)

(** The calls before the form, once the model is loaded. *)
Definition page_calls : list call :=
  [st_set_page_config "Heart Disease Predictor" "centered";
   st_markdown css_block; st_markdown page_heading; st_markdown details_title].

(** The calls that draw the form. *)
Definition form_calls : list call :=
  [st_form "heart_form"; st_columns 2;
   st_number_input age_input; st_selectbox sex_select; st_selectbox cp_select;
   st_selectbox fbs_select; st_selectbox restecg_select;
   st_selectbox exercise_select;
   st_number_input trestbps_input; st_number_input chol_input;
   st_number_input thalach_input; st_number_input_float oldpeak_input;
   st_selectbox slope_select; st_selectbox ca_select;
   st_selectbox thal_select; st_form_submit_button "Predict"].

(** The calls after the form when the classifier answered [prediction]
    and [probability] on the frame [X]. *)
Definition result_calls (h : host) (X : DataFrame) (chol : Z)
  (prediction : Z) (probability : float) : list call :=
  [spinner_show "Analyzing health data..."; time_sleep 2;
   model_predict X; model_predict_proba X; spinner_hide] ++
  trace (verdict prediction) ++
  [st_plotly_chart (risk_gauge prediction probability);
   st_markdown cholesterol_heading;
   st_pyplot (cholesterol_chart chol);
   spinner_show "Preparing your report..."; time_sleep 2; spinner_hide;
   st_download_button download_label
     (to_csv (repr_num h) (linesep h) (report_df h X prediction probability))
     "heart_risk_report.csv" "text/csv";
   st_markdown report_ready].

(** A submission with a successful prediction: the model was loaded, the
    form was submitted, its values encode to the frame [X], and the
    classifier returned a first label [prediction] and, in its first row
    of probabilities, a second entry [probability]. *)
Definition successful_prediction (h : host) (s : session) (X : DataFrame)
  (prediction : Z) (probability : float) : Prop :=
  submitted s = true /\
  input_data (read_form s) = Returns X /\
  exists m,
    pkl_load h = Returns m /\
    (exists rest, predict m X = Returns (prediction :: rest)) /\
    (exists p0 ps rest,
        predict_proba m X = Returns ((p0 :: probability :: ps) :: rest)).

(** ** The scenario of the specification, and a host to run it on *)

#[local] Set Warnings "-inexact-float".

(** The user types the five numbers, picks the eight labels by their
    position in the select boxes, and presses Predict.  [2.3] is the
    binary64 float nearest to 2.3, as in Python. *)
Definition scenario_session : session :=
  mkSession
    (<["Age" := 63]> (<["Resting Blood Pressure (mm Hg)" := 145]>
       (<["Cholesterol (mg/dl)" := 233]>
          (<["Max Heart Rate Achieved" := 150]> ∅))))
    (<["ST Depression (oldpeak)" := 2.3%float]> ∅)
    (<["Gender" := 0%nat]> (<["Chest Pain Type" := 0%nat]>
       (<["Fasting Blood Sugar > 120 mg/dl" := 1%nat]>
          (<["Resting ECG Result" := 1%nat]>
             (<["Exercise Induced Angina" := 0%nat]>
                (<["Slope of ST Segment" := 0%nat]>
                   (<["Number of Major Vessels Colored" := 0%nat]>
                      (<["Thalassemia" := 2%nat]> ∅))))))))
    {["Predict"]}.

Definition scenario_input : PatientInput :=
  mkPatientInput 63 "Male" "Typical Angina" "True" "Normal" "No pain"
    145 233 150 2.3%float "Downsloping" "Normal" "Fixed Defect".

Definition scenario_row : list num :=
  [NInt 63; NInt 145; NInt 233; NInt 150; NFloat 2.3%float;
   NInt 1; NInt 3; NInt 1; NInt 1; NInt 0; NInt 0; NInt 0; NInt 0].

#[local] Set Warnings "inexact-float".

(** A classifier that answers label 1 with probability 0.75, and a host
    that loads it, prints a number as a one-letter tag, ends lines with a
    line feed and leaves [round] to the identity. *)
Definition demo_classifier : classifier :=
  mkClassifier (fun _ => Returns [1])
    (fun _ => Returns [[0.25%float; 0.75%float]]).

Definition demo_host : host :=
  mkHost (Returns demo_classifier)
    (fun n => match n with NInt _ => "i" | NFloat _ => "f" end)
    (String (Ascii.ascii_of_nat 10) "")
    (fun f _ => f).

(** A host whose model file is missing. *)
Definition broken_host : host :=
  mkHost (Throws (OtherException "FileNotFoundError"))
    (fun _ => "") "" (fun f _ => f).

(** The codes of a field, label by label in the order of its select box. *)
Definition code_table (f : cat_field) : list (string * attempt Z) :=
  map (fun label => (label, field_code f label)) (options f).

(** ** More readings of a run and of a frame *)

(** [model_random.predict(input_data)[0]], without the trace. *)
Definition first_label (m : classifier) (X : DataFrame) : attempt Z :=
  labels ← predict m X ; index labels 0.

(** [model_random.predict_proba(input_data)[0][1]], without the trace. *)
Definition positive_probability (m : classifier) (X : DataFrame)
  : attempt float :=
  probs ← predict_proba m X ;
  first_row ← index probs 0 ;
  index first_row 1.

(** The calls around the classifier when the prediction is reached, up to
    the point where it fails: with or without the call to
    [predict_proba]. *)
Definition analysis_calls (X : DataFrame) (reached_proba : bool) : list call :=
  [spinner_show "Analyzing health data..."; time_sleep 2; model_predict X] ++
  (if reached_proba then [model_predict_proba X] else []) ++
  [spinner_hide].

(** The seconds a run sleeps, delay by delay. *)
Definition sleeps (t : list call) : list Z :=
  omap (fun c => match c with time_sleep n => Some n | _ => None end) t.

Definition is_spinner_show (c : call) : bool :=
  match c with spinner_show _ => true | _ => false end.

Definition is_spinner_hide (c : call) : bool :=
  match c with spinner_hide => true | _ => false end.

Definition is_balloons (c : call) : bool :=
  match c with st_balloons => true | _ => false end.

(** The verdicts a run shows, in order. *)
Definition verdicts (t : list call) : list markup :=
  omap (fun c => match c with
                 | st_markdown verdict_disease => Some verdict_disease
                 | st_markdown verdict_healthy => Some verdict_healthy
                 | _ => None
                 end) t.

(** The fields encoded through a dict, in the order of their look-ups. *)
Definition dict_fields : list cat_field :=
  [Cp; Restecg; Exercise; Slope; Ca; Thal].

(** The column of [input_data] that holds the code of a field. *)
Definition column_of (f : cat_field) : string :=
  match f with
  | Sex => "encoded_sex"
  | Cp => "encoded_cp"
  | Fbs => "encoded_fbs"
  | Restecg => "encoded_restecg"
  | Exercise => "encoded_exang"
  | Slope => "encoded_slope"
  | Ca => "encoded_ca"
  | Thal => "encoded_thal"
  end.

(** [df[name][i]]: the value of row [i] under a column label. *)
Definition cell (df : DataFrame) (i : nat) (name : string) : option num :=
  r ← rows df !! i ;
  j ← find_column name (columns df) ;
  r !! j.

(** Every row has one value per column. *)
Definition rectangular (df : DataFrame) : Prop :=
  Forall (fun r => length r = length (columns df)) (rows df).

(** Position of a label among the options of a select box. *)
Fixpoint position (label : string) (opts : list string) : option nat :=
  match opts with
  | [] => None
  | o :: opts' =>
      if String.eqb o label then Some 0%nat
      else option_map S (position label opts')
  end.

(** The session of a user who types the numbers of [p], picks its labels
    and presses Predict. *)
Definition session_of (p : PatientInput) : session :=
  let pick (w : select) (label : string) :=
    default 0%nat (position label (sb_options w)) in
  mkSession
    (<[ii_label age_input := age p]>
       (<[ii_label trestbps_input := trestbps p]>
          (<[ii_label chol_input := chol p]>
             (<[ii_label thalach_input := thalach p]> ∅))))
    (<[fi_label oldpeak_input := oldpeak p]> ∅)
    (<[sb_label sex_select := pick sex_select (sex p)]>
       (<[sb_label cp_select := pick cp_select (cp p)]>
          (<[sb_label fbs_select := pick fbs_select (fbs p)]>
             (<[sb_label restecg_select := pick restecg_select (restecg p)]>
                (<[sb_label exercise_select := pick exercise_select (exercise p)]>
                   (<[sb_label slope_select := pick slope_select (slope p)]>
                      (<[sb_label ca_select := pick ca_select (ca p)]>
                         (<[sb_label thal_select := pick thal_select (thal p)]>
                            ∅))))))))
    {["Predict"]}.

(** The values of a form within the bounds and the options of its
    widgets. *)
Definition in_domain (p : PatientInput) : Prop :=
  int_accepts age_input (age p) = true /\
  int_accepts trestbps_input (trestbps p) = true /\
  int_accepts chol_input (chol p) = true /\
  int_accepts thalach_input (thalach p) = true /\
  float_accepts oldpeak_input (oldpeak p) = true /\
  forall f, field_value f p ∈ options f.

(** Classifiers and hosts for the failing runs. *)
Definition silent_classifier : classifier :=
  mkClassifier (fun _ => Returns []) (fun _ => Returns []).

Definition one_class_classifier : classifier :=
  mkClassifier (fun _ => Returns [0]) (fun _ => Returns [[1.0%float]]).

Definition host_with (m : classifier) : host :=
  mkHost (Returns m) (repr_num demo_host) (linesep demo_host)
    (py_round demo_host).

Definition interrupted_host : host :=
  mkHost (Throws (BaseOnly "KeyboardInterrupt"))
    (fun _ => "") "" (fun f _ => f).

(** ** Reading a CSV text back *)

Definition LF : Ascii.ascii := Ascii.ascii_of_nat 10.

Definition comma : Ascii.ascii := Ascii.ascii_of_nat 44.

(** Whether a character occurs in a text. *)
Fixpoint has_char (c : Ascii.ascii) (s : string) : bool :=
  match s with
  | EmptyString => false
  | String a s' => Ascii.eqb a c || has_char c s'
  end.

(** The pieces of a text between the occurrences of a character. *)
Fixpoint split_at (c : Ascii.ascii) (s : string) : list string :=
  match s with
  | EmptyString => [""]
  | String a s' =>
      if Ascii.eqb a c then "" :: split_at c s'
      else match split_at c s' with
           | [] => [String a ""]
           | piece :: pieces => String a piece :: pieces
           end
  end.

(** The records of an unquoted CSV text whose lines end in a line feed:
    the lines before each line feed, each cut at its commas. *)
Definition read_csv (text : string) : list (list string) :=
  map (split_at comma) (removelast (split_at LF text)).

(** A text with no comma and no line feed: a field that needs no quotes. *)
Definition plain (s : string) : bool :=
  negb (has_char comma s) && negb (has_char LF s).

(** * Properties *)

(** ** The run, piece by piece *)

Lemma heart_form_run (s : session) :
  heart_form s = (form_calls, Done (read_form s, submitted s)).
Proof. reflexivity. Qed.

(** A run whose model loads draws the page and the form, then runs the
    body of the submit branch when the form was submitted. *)
Lemma app_loaded (h : host) (s : session) (m : classifier) :
  pkl_load h = Returns m ->
  app h s =
    if submitted s
    then ((page_calls ++ form_calls) ++ (on_submit h m (read_form s)).1,
          (on_submit h m (read_form s)).2)
    else (page_calls ++ form_calls, Done tt).
Proof.
  intros Hload. unfold app, load_model. rewrite Hload. cbn.
  unfold submitted. destruct (bool_decide _); reflexivity.
Qed.

(** The submit branch when the encoding and both calls to the classifier
    succeed. *)
Lemma on_submit_success (h : host) (m : classifier) (p : PatientInput)
    (X : DataFrame) (prediction : Z) (probability : float)
    (rest : list Z) (p0 : float) (ps : list float) (rest' : list (list float)) :
  input_data p = Returns X ->
  predict m X = Returns (prediction :: rest) ->
  predict_proba m X = Returns ((p0 :: probability :: ps) :: rest') ->
  on_submit h m p = (result_calls h X (chol p) prediction probability, Done tt).
Proof.
  intros HX Hpred Hproba.
  unfold on_submit, analyse, call_predict, call_predict_proba, result_calls.
  rewrite HX. cbn. rewrite Hpred. cbn. rewrite Hproba. cbn.
  unfold verdict. destruct (prediction =? 1); reflexivity.
Qed.

(** The whole trace of a submission with a successful prediction. *)
Lemma app_success (h : host) (s : session) (X : DataFrame)
    (prediction : Z) (probability : float) :
  successful_prediction h s X prediction probability ->
  app h s =
    ((page_calls ++ form_calls) ++
       result_calls h X (chol (read_form s)) prediction probability,
     Done tt).
Proof.
  intros (Hs & HX & m & Hload & [rest Hpred] & (p0 & ps & rest' & Hproba)).
  rewrite (app_loaded h s m Hload), Hs.
  now rewrite (on_submit_success h m _ X prediction probability rest p0 ps rest').
Qed.

(** The verdict draws no chart, offers no file and calls no model. *)
Lemma verdict_calls (prediction : Z) :
  trace (verdict prediction) = [st_markdown verdict_disease] \/
  trace (verdict prediction) = [st_markdown verdict_healthy; st_balloons].
Proof. unfold verdict. destruct (prediction =? 1); [left | right]; reflexivity. Qed.

(** The scenario session is a submission with a successful prediction on
    the demonstration host. *)
Lemma demo_successful :
  successful_prediction demo_host scenario_session
    (mkDataFrame feature_columns [scenario_row]) 1 0.75%float.
Proof.
  split; [reflexivity|]. split; [reflexivity|].
  exists demo_classifier. split; [reflexivity|]. split.
  - exists []. reflexivity.
  - exists 0.25%float, [], []. reflexivity.
Qed.

(** ** Select boxes and number inputs *)

Lemma select_state_in (s : session) (w : select) :
  sb_options w <> [] -> select_state s w ∈ sb_options w.
Proof.
  intros Hne. unfold select_state.
  assert (Hhd : hd "" (sb_options w) ∈ sb_options w).
  { destruct (sb_options w); [congruence | left]. }
  destruct (picked s !! sb_label w) as [i|]; [|exact Hhd].
  destruct (nth_in_or_default i (sb_options w) (hd "" (sb_options w))) as [Hin | ->].
  - now apply list_elem_of_In.
  - exact Hhd.
Qed.

Lemma field_value_in_options (s : session) (f : cat_field) :
  field_value f (read_form s) ∈ options f.
Proof. destruct f; apply select_state_in; discriminate. Qed.

Lemma int_accepts_iff (w : int_input) (z : Z) :
  int_accepts w z = true <-> ii_min w <= z <= ii_max w.
Proof. unfold int_accepts. rewrite andb_true_iff, !Z.leb_le. tauto. Qed.

Lemma int_state_accepted (s : session) (w : int_input) :
  int_accepts w (ii_value w) = true -> int_accepts w (int_state s w) = true.
Proof.
  intros Hdef. unfold int_state.
  destruct (typed_int s !! ii_label w) as [z|]; [|exact Hdef].
  destruct (int_accepts w z) eqn:Hz; [exact Hz | exact Hdef].
Qed.

Lemma float_state_accepted (s : session) (w : float_input) :
  float_accepts w (fi_value w) = true -> float_accepts w (float_state s w) = true.
Proof.
  intros Hdef. unfold float_state.
  destruct (typed_float s !! fi_label w) as [z|]; [|exact Hdef].
  destruct (float_accepts w z) eqn:Hz; [exact Hz | exact Hdef].
Qed.

(** ** Order of binary64 floats, from the specification of the primitives *)

Section FloatOrder.

Local Open Scope float_scope.






End FloatOrder.

(** ** C1: the scenario of the specification *)

(** C1.  The form values age 63, Male, Typical Angina, 145, 233, True,
    Normal, 150, No pain, 2.3, Downsloping, Normal, Fixed Defect encode to
    the 13 values 63, 145, 233, 150, 2.3, 1, 3, 1, 1, 0, 0, 0, 0 under the
    13 feature columns in the order of the script, and a run of the script
    on these entries passes exactly this one-row frame to the classifier's
    [predict], whatever the loaded classifier and the host. *)
Theorem scenario_encoding (m : classifier) (repr : num -> string)
    (nl : string) (rnd : float -> Z -> float) :
  read_form scenario_session = scenario_input /\
  encode scenario_input = Returns scenario_row /\
  length scenario_row = 13%nat /\
  input_data scenario_input =
    Returns (mkDataFrame feature_columns [scenario_row]) /\
  predicted_on (trace (app (mkHost (Returns m) repr nl rnd) scenario_session))
    = [mkDataFrame feature_columns [scenario_row]].
Proof.
  repeat split; try reflexivity.
  rewrite (app_loaded (mkHost (Returns m) repr nl rnd) scenario_session m eq_refl).
  change (submitted scenario_session) with true. cbv iota.
  change (read_form scenario_session) with scenario_input.
  unfold on_submit, analyse, call_predict, call_predict_proba.
  change (input_data scenario_input)
    with (Returns (mkDataFrame feature_columns [scenario_row])).
  set (X := mkDataFrame feature_columns [scenario_row]).
  cbn.
  destruct (predict m X) as [[|l ls]|e]; cbn; try reflexivity.
  destruct (predict_proba m X) as [[|[|p0 [|p1 ps]] rs]|e]; cbn;
    try reflexivity.
  unfold verdict. destruct (l =? 1); reflexivity.
Qed.

(** ** C2: the risk gauge *)












(** ** C3: the report *)

(** A row that [encode] returns has the thirteen values of the script, in
    its order. *)
Lemma encode_shape (p : PatientInput) (row : list num) :
  encode p = Returns row ->
  exists c_cp c_restecg c_exang c_slope c_ca c_thal,
    row = [NInt (age p); NInt (trestbps p); NInt (chol p); NInt (thalach p);
           NFloat (oldpeak p);
           NInt (sex_code (sex p)); NInt c_cp; NInt (fbs_code (fbs p));
           NInt c_restecg; NInt c_exang; NInt c_slope; NInt c_ca; NInt c_thal].
Proof.
  unfold encode.
  destruct (getitem cp_map (cp p)) as [c1|]; [|discriminate].
  destruct (getitem restecg_map (restecg p)) as [c2|]; [|discriminate].
  destruct (getitem exang_map (exercise p)) as [c3|]; [|discriminate].
  destruct (getitem slope_map (slope p)) as [c4|]; [|discriminate].
  destruct (getitem ca_map (ca p)) as [c5|]; [|discriminate].
  destruct (getitem thal_map (thal p)) as [c6|]; [|discriminate].
  cbn. intros [= <-]. now exists c1, c2, c3, c4, c5, c6.
Qed.

(** The frame of a form is its encoded row under the feature columns. *)
Lemma input_data_shape (p : PatientInput) (X : DataFrame) :
  input_data p = Returns X ->
  exists row, encode p = Returns row /\ length row = 13%nat /\
              X = mkDataFrame feature_columns [row].
Proof.
  unfold input_data. destruct (encode p) as [row|] eqn:Henc; [|discriminate].
  destruct (encode_shape p row Henc) as (c1 & c2 & c3 & c4 & c5 & c6 & ->).
  cbn. intros [= <-]. eexists. repeat split.
Qed.

(** ** C4 and C5: the encoder on the labels of the form *)

(** Case analysis on a label known to be one of a listed few. *)
Ltac enumerate H :=
  repeat (apply elem_of_cons in H; destruct H as [-> | H]);
  try (apply elem_of_nil in H; contradiction).

Lemma field_code_defined (f : cat_field) (label : string) :
  label ∈ options f -> exists c, field_code f label = Returns c.
Proof.
  intros Hin. destruct f; cbn in Hin; enumerate Hin;
    eexists; vm_compute; reflexivity.
Qed.

Lemma encode_defined (p : PatientInput) :
  (forall f, field_value f p ∈ options f) ->
  exists row, encode p = Returns row /\
              input_data p = Returns (mkDataFrame feature_columns [row]).
Proof.
  intros Hp.
  destruct (field_code_defined Cp _ (Hp Cp)) as [c1 H1].
  destruct (field_code_defined Restecg _ (Hp Restecg)) as [c2 H2].
  destruct (field_code_defined Exercise _ (Hp Exercise)) as [c3 H3].
  destruct (field_code_defined Slope _ (Hp Slope)) as [c4 H4].
  destruct (field_code_defined Ca _ (Hp Ca)) as [c5 H5].
  destruct (field_code_defined Thal _ (Hp Thal)) as [c6 H6].
  cbn [field_code field_value] in *.
  unfold input_data, encode. rewrite H1, H2, H3, H4, H5, H6.
  eexists. split; reflexivity.
Qed.

(** C4.  For every categorical field and every label its select box
    offers, the expression that encodes the field is defined; the form
    only ever hands the script labels its select boxes offer; so the
    encoding of the values of the form never fails. *)
Theorem encoder_total_on_form :
  (forall f label, label ∈ options f ->
                   exists c, field_code f label = Returns c) /\
  (forall s f, field_value f (read_form s) ∈ options f) /\
  (forall p, (forall f, field_value f p ∈ options f) ->
             exists row, encode p = Returns row /\
                         input_data p = Returns (mkDataFrame feature_columns [row])) /\
  (forall s, exists row,
      encode (read_form s) = Returns row /\
      input_data (read_form s) = Returns (mkDataFrame feature_columns [row])).
Proof.
  split; [exact field_code_defined|].
  split; [exact field_value_in_options|].
  split; [exact encode_defined|].
  intros s. apply encode_defined. intros f. apply field_value_in_options.
Qed.

Lemma encoder_total_on_form_witness :
  exists c, field_code Thal "Fixed Defect" = Returns c.
Proof.
  apply (proj1 encoder_total_on_form Thal "Fixed Defect").
  vm_compute. do 2 right. left.
Defined.

(** C5.  In every categorical field each offered label has exactly one
    code, and two offered labels with the same code are the same label. *)
Theorem codes_injective (f : cat_field) :
  (forall label, label ∈ options f ->
                 exists! c, field_code f label = Returns c) /\
  (forall l1 l2 c,
      l1 ∈ options f -> l2 ∈ options f ->
      field_code f l1 = Returns c -> field_code f l2 = Returns c ->
      l1 = l2).
Proof.
  split.
  - intros label Hin. destruct (field_code_defined f label Hin) as [c Hc].
    exists c. split; [exact Hc|]. intros c' Hc'. congruence.
  - intros l1 l2 c H1 H2 Hc1 Hc2.
    destruct f; cbn in H1, H2; enumerate H1; enumerate H2;
      vm_compute in Hc1, Hc2; congruence.
Qed.

Lemma codes_injective_witness :
  "Normal" ∈ options Thal /\ field_code Thal "Normal" = Returns 1 /\
  "Normal" = "Normal".
Proof.
  assert (Hin : "Normal" ∈ options Thal) by (vm_compute; right; left).
  assert (Hc : field_code Thal "Normal" = Returns 1) by reflexivity.
  split; [exact Hin|]. split; [exact Hc|].
  exact (proj2 (codes_injective Thal) "Normal" "Normal" 1 Hin Hin Hc Hc).
Defined.

(** ** C6: a model that does not load *)

(** C6.  When loading the model raises an exception, the run shows the
    error message and halts: the message is the only call of the run, so
    no widget of the form is drawn, the classifier is never called and no
    file is offered, whatever the user did. *)
Theorem load_failure_halts (h : host) (s : session) (e : py_exc) :
  pkl_load h = Throws e ->
  is_Exception e = true ->
  app h s = ([st_error load_error_message], Halted) /\
  errors (trace (app h s)) = [load_error_message] /\
  ending (app h s) = Halted /\
  filter (fun c => is_widget c) (trace (app h s)) = [] /\
  filter (fun c => is_model_call c) (trace (app h s)) = [] /\
  downloads (trace (app h s)) = [] /\
  gauges (trace (app h s)) = [] /\
  pyplots (trace (app h s)) = [].
Proof.
  intros Hload Hexc.
  assert (Happ : app h s = ([st_error load_error_message], Halted)).
  { unfold app, load_model, try_except. rewrite Hload. cbn. rewrite Hexc.
    reflexivity. }
  rewrite Happ. repeat split.
Qed.

(** What [except Exception] does not catch ends the run as it is. *)
Lemma load_signal_propagates (h : host) (s : session) (e : py_exc) :
  pkl_load h = Throws e ->
  is_Exception e = false ->
  app h s = ([], Died e).
Proof.
  intros Hload Hexc. unfold app, load_model, try_except.
  rewrite Hload. cbn. rewrite Hexc. reflexivity.
Qed.

Lemma load_failure_halts_witness :
  app broken_host scenario_session = ([st_error load_error_message], Halted).
Proof.
  apply (load_failure_halts broken_host scenario_session
           (OtherException "FileNotFoundError")); reflexivity.
Defined.

(** ** C7: the cholesterol bar *)

(** C7.  The chart has one bar, as long as the cholesterol value, salmon
    exactly when the value is above 200 and seagreen otherwise (200 is
    seagreen, 201 is salmon), and one reference line, at 200.  In a
    submission with a successful prediction this chart, on the
    cholesterol of the form, is the one figure passed to [st.pyplot]. *)
Theorem cholesterol_flag (chol_value : Z) :
  let ax := cholesterol_chart chol_value in
  bars ax = [mkBar "Cholesterol" chol_value
               (if chol_value >? 200 then "salmon" else "seagreen")] /\
  (map bar_colour (bars ax) = ["salmon"] <-> 200 < chol_value) /\
  (map bar_colour (bars ax) = ["seagreen"] <-> chol_value <= 200) /\
  map bar_colour (bars (cholesterol_chart 200)) = ["seagreen"] /\
  map bar_colour (bars (cholesterol_chart 201)) = ["salmon"] /\
  map vline_x (vlines ax) = [200] /\
  (forall h s X prediction probability,
      successful_prediction h s X prediction probability ->
      pyplots (trace (app h s)) = [cholesterol_chart (chol (read_form s))]).
Proof.
  cbv zeta. split; [reflexivity|].
  split.
  { cbn. rewrite Z.gtb_ltb. destruct (Z.ltb_spec 200 chol_value); split;
      intros H0; try reflexivity; try assumption; try discriminate H0; lia. }
  split.
  { cbn. rewrite Z.gtb_ltb. destruct (Z.ltb_spec 200 chol_value); split;
      intros H0; try reflexivity; try assumption; try discriminate H0; lia. }
  repeat (split; [reflexivity|]).
  intros h s X prediction probability Hok.
  rewrite (app_success h s X _ _ Hok).
  unfold trace, result_calls. cbn [fst].
  destruct (verdict_calls prediction) as [-> | ->]; reflexivity.
Qed.

Lemma cholesterol_flag_witness :
  pyplots (trace (app demo_host scenario_session)) = [cholesterol_chart 233].
Proof.
  pose proof (cholesterol_flag 233) as H. cbv zeta in H.
  repeat (destruct H as [_ H]).
  exact (H demo_host scenario_session _ 1 0.75%float demo_successful).
Defined.

(** ** C8 and C10: the bounds of the number inputs *)

(** C8.  The age input keeps a typed integer exactly when it lies in
    [1, 120]: 1 and 120 are kept, 0 and 121 are not; the age the script
    reads is the typed one when it is kept and the initial 30 otherwise,
    so it always lies in [1, 120]. *)
Theorem age_bounds :
  (forall z, int_accepts age_input z = true <-> 1 <= z <= 120) /\
  int_accepts age_input 1 = true /\
  int_accepts age_input 120 = true /\
  int_accepts age_input 0 = false /\
  int_accepts age_input 121 = false /\
  (forall s, 1 <= age (read_form s) <= 120) /\
  (forall s z, typed_int s !! "Age" = Some z ->
               age (read_form s) = if int_accepts age_input z then z else 30) /\
  (forall s, typed_int s !! "Age" = None -> age (read_form s) = 30).
Proof.
  split; [intros z; apply (int_accepts_iff age_input z)|].
  repeat (split; [reflexivity|]).
  split.
  { intros s. apply (int_accepts_iff age_input).
    apply int_state_accepted. reflexivity. }
  split.
  - intros s z Hz. cbn. unfold int_state. cbn [ii_label age_input].
    now rewrite Hz.
  - intros s Hz. cbn. unfold int_state. cbn [ii_label age_input].
    now rewrite Hz.
Qed.

Lemma age_bounds_witness :
  age (read_form (mkSession (<["Age" := 121]> ∅) ∅ ∅ ∅)) = 30.
Proof.
  destruct age_bounds as (_ & _ & _ & _ & _ & _ & H & _).
  exact (H (mkSession (<["Age" := 121]> ∅) ∅ ∅ ∅) 121 eq_refl).
Defined.

(** C10.  Resting blood pressure is kept in [80, 200], cholesterol in
    [100, 600], maximum heart rate in [60, 220] and ST depression in
    [0.0, 10.0]; the values the script reads always lie in these ranges,
    whatever the user typed. *)
Theorem numeric_bounds :
  (forall z, int_accepts trestbps_input z = true <-> 80 <= z <= 200) /\
  (forall z, int_accepts chol_input z = true <-> 100 <= z <= 600) /\
  (forall z, int_accepts thalach_input z = true <-> 60 <= z <= 220) /\
  (forall x, float_accepts oldpeak_input x = true <->
             PrimFloat.leb 0.0%float x = true /\
             PrimFloat.leb x 10.0%float = true) /\
  (forall s,
      80 <= trestbps (read_form s) <= 200 /\
      100 <= chol (read_form s) <= 600 /\
      60 <= thalach (read_form s) <= 220 /\
      PrimFloat.leb 0.0%float (oldpeak (read_form s)) = true /\
      PrimFloat.leb (oldpeak (read_form s)) 10.0%float = true).
Proof.
  split; [intros z; apply (int_accepts_iff trestbps_input z)|].
  split; [intros z; apply (int_accepts_iff chol_input z)|].
  split; [intros z; apply (int_accepts_iff thalach_input z)|].
  assert (Hf : forall x, float_accepts oldpeak_input x = true <->
             PrimFloat.leb 0.0%float x = true /\
             PrimFloat.leb x 10.0%float = true).
  { intros x. unfold float_accepts. cbn [fi_min fi_max oldpeak_input].
    apply andb_true_iff. }
  split; [exact Hf|].
  intros s.
  split; [apply (int_accepts_iff trestbps_input), int_state_accepted; reflexivity|].
  split; [apply (int_accepts_iff chol_input), int_state_accepted; reflexivity|].
  split; [apply (int_accepts_iff thalach_input), int_state_accepted; reflexivity|].
  apply Hf. apply (float_state_accepted s oldpeak_input). reflexivity.
Qed.

(** ** C9: the encoding tables *)

(** The keys of the six dicts are the labels of their select boxes. *)
Lemma dict_keys :
  dom cp_map = list_to_set (options Cp) /\
  dom restecg_map = list_to_set (options Restecg) /\
  dom exang_map = list_to_set (options Exercise) /\
  dom slope_map = list_to_set (options Slope) /\
  dom ca_map = list_to_set (options Ca) /\
  dom thal_map = list_to_set (options Thal).
Proof. repeat split; apply bool_decide_eq_true_1; vm_compute; reflexivity. Qed.

(** C9.  The codes of the eight categorical fields, for the labels of
    their select boxes in the order of the form, are: sex Male 1, Female
    0; chest pain Typical Angina 3, Atypical Angina 1, Non Anginal Pain 2,
    Asymptomatic 0; fasting blood sugar False 0, True 1; resting ECG
    Abnormality 0, Normal 1, Left ventricular hypertrophy 2; exercise No
    pain 0, Pain 1; slope Downsloping 0, Upsloping 2, Flat 1; vessels
    Normal 0, One 1, Two 2, Three 3, Four 4; thalassemia Reversible defect
    2, Normal 1, Fixed Defect 0, Unknown 3.  The six dicts have no other
    key. *)
Theorem encoding_tables :
  code_table Sex = [("Male", Returns 1); ("Female", Returns 0)] /\
  code_table Cp =
    [("Typical Angina", Returns 3); ("Atypical Angina", Returns 1);
     ("Non Anginal Pain", Returns 2); ("Asymptomatic", Returns 0)] /\
  code_table Fbs = [("False", Returns 0); ("True", Returns 1)] /\
  code_table Restecg =
    [("Abnormality", Returns 0); ("Normal", Returns 1);
     ("Left ventricular hypertrophy", Returns 2)] /\
  code_table Exercise = [("No pain", Returns 0); ("Pain", Returns 1)] /\
  code_table Slope =
    [("Downsloping", Returns 0); ("Upsloping", Returns 2); ("Flat", Returns 1)] /\
  code_table Ca =
    [("Normal", Returns 0); ("One vessel colored", Returns 1);
     ("Two vessels colored", Returns 2); ("Three vessels colored", Returns 3);
     ("Four vessel colored", Returns 4)] /\
  code_table Thal =
    [("Reversible defect", Returns 2); ("Normal", Returns 1);
     ("Fixed Defect", Returns 0); ("Unknown", Returns 3)] /\
  dom cp_map = list_to_set (options Cp) /\
  dom restecg_map = list_to_set (options Restecg) /\
  dom exang_map = list_to_set (options Exercise) /\
  dom slope_map = list_to_set (options Slope) /\
  dom ca_map = list_to_set (options Ca) /\
  dom thal_map = list_to_set (options Thal).
Proof.
  do 8 (split; [vm_compute; reflexivity|]).
  exact dict_keys.
Qed.

(** * More of the script *)

(** ** The submit branch, case by case *)

(** The submit branch on a frame: it stops at the first call to the
    classifier that fails, and otherwise draws the results. *)
Lemma on_submit_cases (h : host) (m : classifier) (p : PatientInput)
    (X : DataFrame) :
  input_data p = Returns X ->
  on_submit h m p =
    match first_label m X with
    | Throws e => (analysis_calls X false, Died e)
    | Returns prediction =>
        match positive_probability m X with
        | Throws e => (analysis_calls X true, Died e)
        | Returns probability =>
            (result_calls h X (chol p) prediction probability, Done tt)
        end
    end.
Proof.
  intros HX.
  unfold on_submit, analyse, call_predict, call_predict_proba, result_calls,
    first_label, positive_probability, analysis_calls.
  rewrite HX. cbn.
  destruct (predict m X) as [[|l ls]|e]; cbn; try reflexivity.
  destruct (predict_proba m X) as [[|[|p0 [|p1 ps]] rs]|e]; cbn;
    try reflexivity;
    unfold verdict; destruct (l =? 1); reflexivity.
Qed.

(** The form always hands the script values that encode. *)
Lemma form_encodes (s : session) :
  exists row, input_data (read_form s) = Returns (mkDataFrame feature_columns [row]).
Proof.
  destruct (encode_defined (read_form s)) as (row & _ & H).
  - intros f. apply field_value_in_options.
  - now exists row.
Qed.

(** A submission with a successful prediction, in terms of the two
    expressions that read the classifier. *)
Lemma successful_prediction_iff (h : host) (s : session) (X : DataFrame)
    (prediction : Z) (probability : float) :
  successful_prediction h s X prediction probability <->
  submitted s = true /\
  input_data (read_form s) = Returns X /\
  exists m, pkl_load h = Returns m /\
            first_label m X = Returns prediction /\
            positive_probability m X = Returns probability.
Proof.
  unfold successful_prediction, first_label, positive_probability. split.
  - intros (Hs & HX & m & Hm & [rest Hp] & (p0 & ps & rest' & Hq)).
    repeat split; try assumption. exists m. rewrite Hp, Hq. now repeat split.
  - intros (Hs & HX & m & Hm & Hp & Hq).
    repeat split; try assumption. exists m. split; [assumption|].
    destruct (predict m X) as [[|l ls]|e]; try discriminate.
    destruct (predict_proba m X) as [[|[|p0 [|p1 ps]] rs]|e]; try discriminate.
    cbn in Hp, Hq. injection Hp as ->. injection Hq as ->.
    split; eauto.
Qed.

(** ** Runs that were not submitted *)

(** X1.  When the model loads and Predict was not pressed, the run draws
    the page and the form and ends there: it does not sleep, never calls
    the classifier, and shows no verdict, chart or download. *)
Theorem unsubmitted_run (h : host) (s : session) (m : classifier) :
  pkl_load h = Returns m ->
  submitted s = false ->
  app h s = (page_calls ++ form_calls, Done tt) /\
  filter (fun c => is_model_call c) (trace (app h s)) = [] /\
  sleeps (trace (app h s)) = [] /\
  verdicts (trace (app h s)) = [] /\
  gauges (trace (app h s)) = [] /\
  pyplots (trace (app h s)) = [] /\
  downloads (trace (app h s)) = [].
Proof.
  intros Hm Hs. rewrite (app_loaded h s m Hm), Hs. repeat split.
Qed.

Lemma unsubmitted_run_witness :
  app demo_host (mkSession ∅ ∅ ∅ ∅) = (page_calls ++ form_calls, Done tt).
Proof.
  apply (unsubmitted_run demo_host (mkSession ∅ ∅ ∅ ∅) demo_classifier);
    reflexivity.
Defined.

(** ** Runs whose prediction fails *)

(** X2.  When the form is submitted and the first label cannot be read
    (the classifier's [predict] raises, or returns no label, which is an
    [IndexError]), the run dies on that exception right after the call:
    the spinner is hidden, [predict_proba] is not called, and no verdict,
    chart or download follows. *)
Theorem prediction_failure_stops (h : host) (s : session) (m : classifier)
    (X : DataFrame) (e : py_exc) :
  pkl_load h = Returns m ->
  submitted s = true ->
  input_data (read_form s) = Returns X ->
  first_label m X = Throws e ->
  app h s = ((page_calls ++ form_calls) ++
               [spinner_show "Analyzing health data..."; time_sleep 2;
                model_predict X; spinner_hide],
             Died e) /\
  verdicts (trace (app h s)) = [] /\
  gauges (trace (app h s)) = [] /\
  pyplots (trace (app h s)) = [] /\
  downloads (trace (app h s)) = [].
Proof.
  intros Hm Hs HX He.
  rewrite (app_loaded h s m Hm), Hs, (on_submit_cases h m _ X HX), He.
  repeat split.
Qed.

Lemma prediction_failure_stops_witness :
  ending (app (host_with silent_classifier) scenario_session) = Died IndexError.
Proof.
  pose proof (prediction_failure_stops (host_with silent_classifier)
                scenario_session silent_classifier
                (mkDataFrame feature_columns [scenario_row]) IndexError
                eq_refl eq_refl eq_refl eq_refl) as [H _].
  rewrite H. reflexivity.
Defined.

(** X3.  When the first label is read but the probability of the positive
    class cannot be ([predict_proba] raises, returns no row, or returns a
    first row with fewer than two classes, which is an [IndexError]), the
    run dies on that exception after both calls, before any verdict, chart
    or download. *)
Theorem probability_failure_stops (h : host) (s : session) (m : classifier)
    (X : DataFrame) (prediction : Z) (e : py_exc) :
  pkl_load h = Returns m ->
  submitted s = true ->
  input_data (read_form s) = Returns X ->
  first_label m X = Returns prediction ->
  positive_probability m X = Throws e ->
  app h s = ((page_calls ++ form_calls) ++
               [spinner_show "Analyzing health data..."; time_sleep 2;
                model_predict X; model_predict_proba X; spinner_hide],
             Died e) /\
  verdicts (trace (app h s)) = [] /\
  gauges (trace (app h s)) = [] /\
  pyplots (trace (app h s)) = [] /\
  downloads (trace (app h s)) = [].
Proof.
  intros Hm Hs HX Hp He.
  rewrite (app_loaded h s m Hm), Hs, (on_submit_cases h m _ X HX), Hp, He.
  repeat split.
Qed.

Lemma probability_failure_stops_witness :
  ending (app (host_with one_class_classifier) scenario_session)
    = Died IndexError.
Proof.
  pose proof (probability_failure_stops (host_with one_class_classifier)
                scenario_session one_class_classifier
                (mkDataFrame feature_columns [scenario_row]) 0 IndexError
                eq_refl eq_refl eq_refl eq_refl eq_refl) as [H _].
  rewrite H. reflexivity.
Defined.

(** A probability row with a single class has no second entry. *)
Lemma one_class_row_fails (m : classifier) (X : DataFrame) (p0 : float)
    (rest : list (list float)) :
  predict_proba m X = Returns ([p0] :: rest) ->
  positive_probability m X = Throws IndexError.
Proof. intros H. unfold positive_probability. now rewrite H. Qed.

(** ** Every run *)

(** A run whose model does not load. *)
Lemma app_not_loaded (h : host) (s : session) (e : py_exc) :
  pkl_load h = Throws e ->
  app h s = if is_Exception e then ([st_error load_error_message], Halted)
            else ([], Died e).
Proof.
  intros Hload. unfold app, load_model, try_except. rewrite Hload. cbn.
  destruct (is_Exception e); reflexivity.
Qed.

(** The run, whatever the host and the session. *)
Lemma app_run (h : host) (s : session) :
  exists row,
    input_data (read_form s) = Returns (mkDataFrame feature_columns [row]) /\
    app h s =
      let X := mkDataFrame feature_columns [row] in
      match pkl_load h with
      | Throws e =>
          if is_Exception e then ([st_error load_error_message], Halted)
          else ([], Died e)
      | Returns m =>
          if submitted s then
            match first_label m X with
            | Throws e =>
                ((page_calls ++ form_calls) ++ analysis_calls X false, Died e)
            | Returns prediction =>
                match positive_probability m X with
                | Throws e =>
                    ((page_calls ++ form_calls) ++ analysis_calls X true, Died e)
                | Returns probability =>
                    ((page_calls ++ form_calls) ++
                       result_calls h X (chol (read_form s))
                         prediction probability,
                     Done tt)
                end
            end
          else (page_calls ++ form_calls, Done tt)
      end.
Proof.
  destruct (form_encodes s) as [row HX]. exists row. split; [exact HX|].
  cbv zeta. destruct (pkl_load h) as [m|e] eqn:Hload.
  - rewrite (app_loaded h s m Hload). destruct (submitted s); [|reflexivity].
    rewrite (on_submit_cases h m _ _ HX).
    destruct (first_label m _); [|reflexivity].
    destruct (positive_probability m _); reflexivity.
  - apply app_not_loaded, Hload.
Qed.

(** Case analysis on a run. *)
Ltac run_cases h s row HX :=
  let Happ := fresh "Happ" in
  destruct (app_run h s) as (row & HX & Happ); rewrite Happ; clear Happ;
  cbv zeta.

(** X4.  In a submitted run the classifier's [predict] is called exactly
    once, on the frame of the form; [predict_proba] is called at most
    once, only after a first label was read, and on the same frame. *)
Theorem classifier_calls (h : host) (s : session) (m : classifier) :
  pkl_load h = Returns m ->
  submitted s = true ->
  exists X,
    input_data (read_form s) = Returns X /\
    filter (fun c => is_model_call c) (trace (app h s)) =
      model_predict X ::
      match first_label m X with
      | Returns _ => [model_predict_proba X]
      | Throws _ => []
      end.
Proof.
  intros Hm Hs. run_cases h s row HX. eexists. split; [exact HX|].
  rewrite Hm, Hs.
  destruct (first_label m _) as [l|e]; [|reflexivity].
  destruct (positive_probability m _) as [q|e]; [|reflexivity].
  unfold trace, result_calls. cbn [fst].
  destruct (verdict_calls l) as [-> | ->]; reflexivity.
Qed.

Lemma classifier_calls_witness :
  exists X,
    input_data (read_form scenario_session) = Returns X /\
    filter (fun c => is_model_call c) (trace (app demo_host scenario_session)) =
      model_predict X ::
      match first_label demo_classifier X with
      | Returns _ => [model_predict_proba X]
      | Throws _ => []
      end.
Proof.
  exact (classifier_calls demo_host scenario_session demo_classifier
           eq_refl eq_refl).
Defined.

(** X5.  A run offers a download exactly when it is a submission with a
    successful prediction, and then it offers exactly one. *)
Theorem download_iff_success (h : host) (s : session) :
  (downloads (trace (app h s)) <> [] <->
   exists X prediction probability,
     successful_prediction h s X prediction probability) /\
  (length (downloads (trace (app h s))) <= 1)%nat.
Proof.
  split; [split|].
  - run_cases h s row HX.
    destruct (pkl_load h) as [m|e] eqn:Hm.
    + destruct (submitted s) eqn:Hs; [|intros []; reflexivity].
      destruct (first_label m _) as [l|e] eqn:Hl; [|intros []; reflexivity].
      destruct (positive_probability m _) as [q|e] eqn:Hq;
        [|intros []; reflexivity].
      intros _. exists (mkDataFrame feature_columns [row]), l, q.
      apply successful_prediction_iff. eauto 10.
    + destruct (is_Exception e); intros []; reflexivity.
  - intros (X & l & q & Hok). rewrite (app_success h s X l q Hok).
    unfold trace, result_calls. cbn [fst].
    generalize (chol (read_form s)) as c. intros c.
    destruct (verdict_calls l) as [-> | ->]; intros H;
      apply (f_equal length) in H; vm_compute in H; discriminate H.
  - run_cases h s row HX.
    destruct (pkl_load h) as [m|e].
    + destruct (submitted s); [|exact (Nat.le_0_l 1)].
      destruct (first_label m _) as [l|e]; [|exact (Nat.le_0_l 1)].
      destruct (positive_probability m _) as [q|e]; [|exact (Nat.le_0_l 1)].
      unfold trace, result_calls. cbn [fst].
      destruct (verdict_calls l) as [-> | ->]; exact (le_n 1).
    + destruct (is_Exception e); exact (Nat.le_0_l 1).
Qed.

(** X6.  A run reaches the end of the script exactly when the model loads
    and either the form was not submitted or the prediction succeeds. *)
Theorem run_completes_iff (h : host) (s : session) :
  ending (app h s) = Done tt <->
  exists m, pkl_load h = Returns m /\
    (submitted s = false \/
     exists X prediction probability,
       successful_prediction h s X prediction probability).
Proof.
  split.
  - run_cases h s row HX.
    destruct (pkl_load h) as [m|e] eqn:Hm.
    + destruct (submitted s) eqn:Hs; [|intros _; eauto].
      destruct (first_label m _) as [l|e] eqn:Hl; [|discriminate].
      destruct (positive_probability m _) as [q|e] eqn:Hq; [|discriminate].
      intros _. exists m. split; [reflexivity|]. right.
      exists (mkDataFrame feature_columns [row]), l, q.
      apply successful_prediction_iff. eauto 10.
    + destruct (is_Exception e); discriminate.
  - intros (m & Hm & [Hs | (X & l & q & Hok)]).
    + now rewrite (app_loaded h s m Hm), Hs.
    + now rewrite (app_success h s X l q Hok).
Qed.

(** X7.  In a submission with a successful prediction the run shows
    exactly one verdict: the warning, without balloons, when the label is
    1, and the all-clear, with balloons, otherwise; the bar of the gauge
    is red exactly in the runs that show the warning. *)
Theorem verdict_follows_label (h : host) (s : session) (X : DataFrame)
    (prediction : Z) (probability : float) :
  successful_prediction h s X prediction probability ->
  verdicts (trace (app h s)) =
    [if prediction =? 1 then verdict_disease else verdict_healthy] /\
  filter (fun c => is_balloons c) (trace (app h s)) =
    (if prediction =? 1 then [] else [st_balloons]) /\
  (map bar_color (gauges (trace (app h s))) = ["red"] <->
   verdicts (trace (app h s)) = [verdict_disease]).
Proof.
  intros Hok. rewrite (app_success h s X _ _ Hok).
  unfold trace, result_calls, verdict. cbn [fst].
  generalize (chol (read_form s)) as c.
  generalize (to_csv (repr_num h) (linesep h)
                (report_df h X prediction probability)) as csv.
  intros csv c. unfold risk_gauge.
  destruct (prediction =? 1).
  - repeat split; reflexivity.
  - split; [reflexivity|]. split; [reflexivity|].
    split; intros H; vm_compute in H; discriminate H.
Qed.

Lemma verdict_follows_label_witness :
  verdicts (trace (app demo_host scenario_session)) = [verdict_disease].
Proof.
  exact (proj1 (verdict_follows_label demo_host scenario_session _ 1
                  0.75%float demo_successful)).
Defined.

(** X8.  Whenever the model loads, the run draws the page and then the
    whole form, the same sixteen calls whatever the user did and however
    the rest of the run ends. *)
Theorem form_always_drawn (h : host) (s : session) (m : classifier) :
  pkl_load h = Returns m ->
  take (length (page_calls ++ form_calls)) (trace (app h s))
    = page_calls ++ form_calls /\
  filter (fun c => is_widget c) (trace (app h s)) = form_calls.
Proof.
  intros Hm. run_cases h s row HX. rewrite Hm.
  destruct (submitted s); [|split; reflexivity].
  destruct (first_label m _) as [l|e]; [|split; reflexivity].
  destruct (positive_probability m _) as [q|e]; [|split; reflexivity].
  unfold trace, result_calls. cbn [fst].
  destruct (verdict_calls l) as [-> | ->]; split; reflexivity.
Qed.

Lemma form_always_drawn_witness :
  filter (fun c => is_widget c)
    (trace (app (host_with silent_classifier) scenario_session)) = form_calls.
Proof.
  exact (proj2 (form_always_drawn (host_with silent_classifier)
                  scenario_session silent_classifier eq_refl)).
Defined.

(** X9.  In every run each spinner that is shown is hidden again, also
    when the run dies inside it, and the run sleeps at most twice, two
    seconds each time. *)
Theorem spinners_and_delays (h : host) (s : session) :
  length (filter (fun c => is_spinner_show c) (trace (app h s))) =
  length (filter (fun c => is_spinner_hide c) (trace (app h s))) /\
  (sleeps (trace (app h s)) = [] \/
   sleeps (trace (app h s)) = [2] \/
   sleeps (trace (app h s)) = [2; 2]).
Proof.
  run_cases h s row HX.
  destruct (pkl_load h) as [m|e].
  - destruct (submitted s); [|split; [reflexivity | left; reflexivity]].
    destruct (first_label m _) as [l|e];
      [|split; [reflexivity | right; left; reflexivity]].
    destruct (positive_probability m _) as [q|e];
      [|split; [reflexivity | right; left; reflexivity]].
    unfold trace, result_calls. cbn [fst].
    destruct (verdict_calls l) as [-> | ->];
      (split; [reflexivity | right; right; reflexivity]).
  - destruct (is_Exception e); (split; [reflexivity | left; reflexivity]).
Qed.

(** ** The encoder outside the labels of the form *)

Lemma getitem_missing (d : gmap string Z) (k : string) :
  k ∉ dom d -> getitem d k = Throws (KeyError k).
Proof. intros H. apply not_elem_of_dom in H. unfold getitem. now rewrite H. Qed.

(** On a field encoded through a dict, a label is either offered and has
    a code, or is not offered and raises [KeyError]. *)
Lemma dict_field_code (f : cat_field) (label : string) :
  f ∈ dict_fields ->
  (label ∈ options f /\ exists c, field_code f label = Returns c) \/
  ((label ∉ options f) /\ field_code f label = Throws (KeyError label)).
Proof.
  intros Hf. destruct (decide (label ∈ options f)) as [Hin | Hout].
  - left. split; [exact Hin | now apply field_code_defined].
  - right. split; [exact Hout|].
    destruct dict_keys as (K1 & K2 & K3 & K4 & K5 & K6).
    enumerate Hf; cbn [field_code]; apply getitem_missing;
      rewrite ?K1, ?K2, ?K3, ?K4, ?K5, ?K6, elem_of_list_to_set; exact Hout.
Qed.

(** The six look-ups behind a row that [encode] returns. *)
Lemma encode_inv (p : PatientInput) (row : list num) :
  encode p = Returns row ->
  exists c_cp c_restecg c_exang c_slope c_ca c_thal,
    field_code Cp (cp p) = Returns c_cp /\
    field_code Restecg (restecg p) = Returns c_restecg /\
    field_code Exercise (exercise p) = Returns c_exang /\
    field_code Slope (slope p) = Returns c_slope /\
    field_code Ca (ca p) = Returns c_ca /\
    field_code Thal (thal p) = Returns c_thal /\
    row = [NInt (age p); NInt (trestbps p); NInt (chol p); NInt (thalach p);
           NFloat (oldpeak p);
           NInt (sex_code (sex p)); NInt c_cp; NInt (fbs_code (fbs p));
           NInt c_restecg; NInt c_exang; NInt c_slope; NInt c_ca; NInt c_thal].
Proof.
  unfold encode. cbn [field_code].
  destruct (getitem cp_map (cp p)) as [c1|]; [|discriminate].
  destruct (getitem restecg_map (restecg p)) as [c2|]; [|discriminate].
  destruct (getitem exang_map (exercise p)) as [c3|]; [|discriminate].
  destruct (getitem slope_map (slope p)) as [c4|]; [|discriminate].
  destruct (getitem ca_map (ca p)) as [c5|]; [|discriminate].
  destruct (getitem thal_map (thal p)) as [c6|]; [|discriminate].
  cbn. intros [= <-]. exists c1, c2, c3, c4, c5, c6. now repeat split.
Qed.

(** X10.  A label that its select box does not offer raises [KeyError]
    with that label in the six fields encoded through a dict, but is
    encoded as 0, without an error, as sex (anything but Male) and as
    fasting blood sugar (anything but True). *)
Theorem unmapped_labels :
  (forall f label, f ∈ dict_fields -> label ∉ options f ->
                   field_code f label = Throws (KeyError label)) /\
  (forall label, label <> "Male" -> field_code Sex label = Returns 0) /\
  (forall label, label <> "True" -> field_code Fbs label = Returns 0).
Proof.
  split; [|split].
  - intros f label Hf Hout.
    destruct (dict_field_code f label Hf) as [[Hin _] | [_ H]];
      [contradiction | exact H].
  - intros label Hne. cbn. unfold sex_code.
    apply String.eqb_neq in Hne. now rewrite Hne.
  - intros label Hne. cbn. unfold fbs_code.
    apply String.eqb_neq in Hne. now rewrite Hne.
Qed.

Lemma unmapped_labels_witness :
  field_code Thal "fixed defect" = Throws (KeyError "fixed defect") /\
  field_code Sex "male" = Returns 0.
Proof.
  split.
  - apply (proj1 unmapped_labels Thal "fixed defect").
    + vm_compute. do 5 right. left.
    + intros H. cbn in H.
      repeat (apply elem_of_cons in H; destruct H as [H | H];
              [discriminate H|]).
      now apply elem_of_nil in H.
  - apply (proj1 (proj2 unmapped_labels) "male"). discriminate.
Defined.

(** X11.  Encoding succeeds exactly when the six labels encoded through a
    dict are offered by their select boxes; the labels of sex and fasting
    blood sugar, and the numbers, play no part. *)
Theorem encode_succeeds_iff (p : PatientInput) :
  (exists row, encode p = Returns row) <->
  (forall f, f ∈ dict_fields -> field_value f p ∈ options f).
Proof.
  split.
  - intros [row Hrow] f Hf.
    destruct (encode_inv p row Hrow)
      as (c1 & c2 & c3 & c4 & c5 & c6 & H1 & H2 & H3 & H4 & H5 & H6 & _).
    destruct (dict_field_code f (field_value f p) Hf) as [[Hin _] | [_ H]];
      [exact Hin|].
    enumerate Hf; cbn [field_value] in H; congruence.
  - intros Hp.
    assert (Hc : forall f, f ∈ dict_fields ->
                 exists c, field_code f (field_value f p) = Returns c).
    { intros f Hf. apply field_code_defined, Hp, Hf. }
    destruct (Hc Cp) as [c1 H1]; [vm_compute; left|].
    destruct (Hc Restecg) as [c2 H2]; [vm_compute; do 1 right; left|].
    destruct (Hc Exercise) as [c3 H3]; [vm_compute; do 2 right; left|].
    destruct (Hc Slope) as [c4 H4]; [vm_compute; do 3 right; left|].
    destruct (Hc Ca) as [c5 H5]; [vm_compute; do 4 right; left|].
    destruct (Hc Thal) as [c6 H6]; [vm_compute; do 5 right; left|].
    cbn [field_code field_value] in *.
    unfold encode. rewrite H1, H2, H3, H4, H5, H6. eexists. reflexivity.
Qed.

(** X12.  When encoding fails it raises the [KeyError] of the first field,
    in the order chest pain, resting ECG, exercise, slope, vessels,
    thalassemia, whose label is not offered, with that label. *)
Theorem encode_first_unmapped (p : PatientInput) (e : py_exc) :
  encode p = Throws e ->
  exists before f after,
    dict_fields = before ++ f :: after /\
    (forall g, g ∈ before -> field_value g p ∈ options g) /\
    (field_value f p ∉ options f) /\
    e = KeyError (field_value f p).
Proof.
  unfold encode.
  destruct (dict_field_code Cp (cp p)) as [[I1 [c1 H1]] | [O H]];
    [vm_compute; left | |
     cbn [field_code] in H; rewrite H; intros [= <-];
     exists [], Cp, [Restecg; Exercise; Slope; Ca; Thal];
     repeat split; [intros g Hg; enumerate Hg | exact O]].
  destruct (dict_field_code Restecg (restecg p)) as [[I2 [c2 H2]] | [O H]];
    [vm_compute; do 1 right; left | |
     cbn [field_code] in H1, H; rewrite H1, H; intros [= <-];
     exists [Cp], Restecg, [Exercise; Slope; Ca; Thal];
     repeat split; [intros g Hg; enumerate Hg; assumption | exact O]].
  destruct (dict_field_code Exercise (exercise p)) as [[I3 [c3 H3]] | [O H]];
    [vm_compute; do 2 right; left | |
     cbn [field_code] in H1, H2, H; rewrite H1, H2, H; intros [= <-];
     exists [Cp; Restecg], Exercise, [Slope; Ca; Thal];
     repeat split; [intros g Hg; enumerate Hg; assumption | exact O]].
  destruct (dict_field_code Slope (slope p)) as [[I4 [c4 H4]] | [O H]];
    [vm_compute; do 3 right; left | |
     cbn [field_code] in H1, H2, H3, H; rewrite H1, H2, H3, H; intros [= <-];
     exists [Cp; Restecg; Exercise], Slope, [Ca; Thal];
     repeat split; [intros g Hg; enumerate Hg; assumption | exact O]].
  destruct (dict_field_code Ca (ca p)) as [[I5 [c5 H5]] | [O H]];
    [vm_compute; do 4 right; left | |
     cbn [field_code] in H1, H2, H3, H4, H;
     rewrite H1, H2, H3, H4, H; intros [= <-];
     exists [Cp; Restecg; Exercise; Slope], Ca, [Thal];
     repeat split; [intros g Hg; enumerate Hg; assumption | exact O]].
  destruct (dict_field_code Thal (thal p)) as [[I6 [c6 H6]] | [O H]];
    [vm_compute; do 5 right; left | |
     cbn [field_code] in H1, H2, H3, H4, H5, H;
     rewrite H1, H2, H3, H4, H5, H; intros [= <-];
     exists [Cp; Restecg; Exercise; Slope; Ca], Thal, [];
     repeat split; [intros g Hg; enumerate Hg; assumption | exact O]].
  cbn [field_code] in *. rewrite H1, H2, H3, H4, H5, H6. discriminate.
Qed.

Lemma encode_first_unmapped_witness :
  exists before f after,
    dict_fields = before ++ f :: after /\
    (forall g, g ∈ before ->
               field_value g (mkPatientInput 63 "Male" "Typical Angina" "True"
                  "normal" "No pain" 145 233 150 1.0%float "Downsloping"
                  "Normal" "fixed") ∈ options g) /\
    ("normal" ∉ options f) /\
    KeyError "normal" = KeyError "normal".
Proof.
  destruct (encode_first_unmapped
              (mkPatientInput 63 "Male" "Typical Angina" "True"
                 "normal" "No pain" 145 233 150 1.0%float "Downsloping"
                 "Normal" "fixed") (KeyError "normal") eq_refl)
    as (before & f & after & Hsplit & Hbefore & Hout & He).
  exists before, f, after. injection He as He. rewrite <- He in Hout.
  now repeat split.
Defined.

(** ** Columns and cells *)

(** X13.  In the frame built from the form every value sits under the
    column that names it: the five numbers under age, trestbps, chol,
    thalach and oldpeak, and the code of each categorical field under its
    encoded_ column. *)
Theorem input_columns_aligned (p : PatientInput) (X : DataFrame) :
  input_data p = Returns X ->
  length (rows X) = 1%nat /\
  cell X 0 "age" = Some (NInt (age p)) /\
  cell X 0 "trestbps" = Some (NInt (trestbps p)) /\
  cell X 0 "chol" = Some (NInt (chol p)) /\
  cell X 0 "thalach" = Some (NInt (thalach p)) /\
  cell X 0 "oldpeak" = Some (NFloat (oldpeak p)) /\
  (forall f, exists c,
      field_code f (field_value f p) = Returns c /\
      cell X 0 (column_of f) = Some (NInt c)).
Proof.
  intros HX.
  destruct (input_data_shape p X HX) as (row & Henc & _ & ->).
  destruct (encode_inv p row Henc)
    as (c1 & c2 & c3 & c4 & c5 & c6 & H1 & H2 & H3 & H4 & H5 & H6 & ->).
  repeat (split; [reflexivity|]).
  intros f. destruct f; cbn [field_value column_of].
  - exists (sex_code (sex p)). split; reflexivity.
  - exists c1. split; [exact H1 | reflexivity].
  - exists (fbs_code (fbs p)). split; reflexivity.
  - exists c2. split; [exact H2 | reflexivity].
  - exists c3. split; [exact H3 | reflexivity].
  - exists c4. split; [exact H4 | reflexivity].
  - exists c5. split; [exact H5 | reflexivity].
  - exists c6. split; [exact H6 | reflexivity].
Qed.

Lemma input_columns_aligned_witness :
  cell (mkDataFrame feature_columns [scenario_row]) 0 "oldpeak"
    = Some (NFloat (oldpeak scenario_input)).
Proof.
  destruct (input_columns_aligned scenario_input
              (mkDataFrame feature_columns [scenario_row]) eq_refl)
    as (_ & _ & _ & _ & _ & H & _).
  exact H.
Defined.

(** *** Assigning a column and reading it back *)

Lemma find_column_lt (name : string) (cols : list string) (j : nat) :
  find_column name cols = Some j -> (j < length cols)%nat.
Proof.
  revert j. induction cols as [|c cols IH]; intros j; cbn; [discriminate|].
  destruct (String.eqb c name).
  - intros [= <-]. lia.
  - destruct (find_column name cols) as [k|]; [|discriminate].
    cbn. intros [= <-]. specialize (IH k eq_refl). lia.
Qed.

Lemma find_column_app_new (name : string) (cols : list string) :
  find_column name cols = None ->
  find_column name (cols ++ [name]) = Some (length cols).
Proof.
  induction cols as [|c cols IH]; cbn.
  - now rewrite String.eqb_refl.
  - destruct (String.eqb c name); [discriminate|].
    destruct (find_column name cols); [discriminate|].
    intros _. now rewrite IH.
Qed.

Lemma find_column_app_other (name other : string) (cols : list string) :
  other <> name ->
  find_column other (cols ++ [name]) = find_column other cols.
Proof.
  intros Hne. induction cols as [|c cols IH]; cbn.
  - apply not_eq_sym in Hne. apply String.eqb_neq in Hne. now rewrite Hne.
  - destruct (String.eqb c other); [reflexivity | now rewrite IH].
Qed.

(** Two labels found at the same position are the same label. *)
Lemma find_column_inj (name other : string) (cols : list string) (j : nat) :
  find_column name cols = Some j -> find_column other cols = Some j ->
  name = other.
Proof.
  revert j. induction cols as [|c cols IH]; intros j; cbn; [discriminate|].
  destruct (String.eqb_spec c name) as [E1 | Hn],
           (String.eqb_spec c other) as [E2 | Ho].
  - intros _ _. congruence.
  - intros [= <-]. destruct (find_column other cols); discriminate.
  - destruct (find_column name cols); [|discriminate].
    cbn. intros [= <-]. discriminate.
  - destruct (find_column name cols) as [k|]; [|discriminate].
    destruct (find_column other cols) as [k'|] eqn:E'; [|discriminate].
    cbn. intros [= <-] [= ->]. now apply (IH k).
Qed.

Lemma rectangular_setitem (df : DataFrame) (name : string) (v : num) :
  rectangular df -> rectangular (setitem df name v).
Proof.
  unfold rectangular, setitem. intros Hrect.
  destruct (find_column name (columns df)) as [j|]; cbn;
    apply Forall_map; eapply Forall_impl; try exact Hrect;
    cbn; intros r Hr.
  - now rewrite length_insert.
  - rewrite !length_app. cbn. lia.
Qed.

Lemma rows_setitem (df : DataFrame) (name : string) (v : num) :
  length (rows (setitem df name v)) = length (rows df).
Proof.
  unfold setitem. destruct (find_column name (columns df));
    cbn; apply length_map.
Qed.

(** The value assigned to a column is the one read back under its label,
    in every row. *)
Lemma cell_setitem_same (df : DataFrame) (name : string) (v : num) (i : nat) :
  rectangular df -> (i < length (rows df))%nat ->
  cell (setitem df name v) i name = Some v.
Proof.
  unfold rectangular. intros Hrect Hi.
  destruct (lookup_lt_is_Some_2 (rows df) i Hi) as [r Hr].
  pose proof (proj1 (Forall_lookup _ _) Hrect i r Hr) as Hlen. cbn in Hlen.
  unfold cell, setitem.
  destruct (find_column name (columns df)) as [j|] eqn:Hj; cbn.
  - rewrite list_lookup_fmap, Hr. cbn. rewrite Hj. cbn.
    apply list_lookup_insert_eq. rewrite Hlen. now apply find_column_lt in Hj.
  - rewrite list_lookup_fmap, Hr. cbn.
    rewrite (find_column_app_new name _ Hj). cbn.
    rewrite <- Hlen. apply list_lookup_middle. reflexivity.
Qed.

(** Assigning a column leaves the values under every other label as they
    were. *)
Lemma cell_setitem_other (df : DataFrame) (name other : string) (v : num)
    (i : nat) :
  rectangular df -> other <> name ->
  cell (setitem df name v) i other = cell df i other.
Proof.
  unfold rectangular. intros Hrect Hne.
  unfold cell, setitem.
  destruct (find_column name (columns df)) as [j|] eqn:Hj; cbn;
    rewrite list_lookup_fmap;
    destruct (rows df !! i) as [r|] eqn:Hr; cbn; try reflexivity.
  - destruct (find_column other (columns df)) as [k|] eqn:Hk; cbn;
      [|reflexivity].
    apply list_lookup_insert_ne. intros ->.
    apply Hne. symmetry. exact (find_column_inj _ _ _ _ Hj Hk).
  - rewrite (find_column_app_other name other _ Hne).
    destruct (find_column other (columns df)) as [k|] eqn:Hk; cbn;
      [|reflexivity].
    apply lookup_app_l.
    pose proof (proj1 (Forall_lookup _ _) Hrect i r Hr) as Hlen. cbn in Hlen.
    rewrite Hlen. now apply find_column_lt in Hk.
Qed.

(** X14.  Whatever rectangular frame the report starts from, in every row
    of the report the label is read back under prediction and the rounded
    percentage under risk_percent, every other column reads as in the
    input frame, and the report has the rows of the input and stays
    rectangular. *)
Theorem report_cells (h : host) (X : DataFrame) (prediction : Z)
    (probability : float) (i : nat) :
  rectangular X ->
  (i < length (rows X))%nat ->
  let df := report_df h X prediction probability in
  cell df i "prediction" = Some (NInt prediction) /\
  cell df i "risk_percent" =
    Some (NFloat (py_round h (PrimFloat.mul probability 100%float) 2)) /\
  (forall name, name <> "prediction" -> name <> "risk_percent" ->
                cell df i name = cell X i name) /\
  length (rows df) = length (rows X) /\
  rectangular df.
Proof.
  intros Hrect Hi. cbv zeta. unfold report_df.
  set (df1 := setitem X "prediction" (NInt prediction)).
  assert (Hrect1 : rectangular df1) by now apply rectangular_setitem.
  assert (Hrows1 : length (rows df1) = length (rows X)) by apply rows_setitem.
  split; [|split; [|split; [|split]]].
  - rewrite cell_setitem_other by (assumption || discriminate).
    now apply cell_setitem_same.
  - apply cell_setitem_same; [assumption | now rewrite Hrows1].
  - intros name H1 H2. rewrite cell_setitem_other by assumption.
    now apply cell_setitem_other.
  - now rewrite rows_setitem.
  - now apply rectangular_setitem.
Qed.

Lemma report_cells_witness :
  cell (report_df demo_host (mkDataFrame feature_columns [scenario_row])
          1 0.75%float) 0 "prediction" = Some (NInt 1).
Proof.
  refine (proj1 (report_cells demo_host
                   (mkDataFrame feature_columns [scenario_row])
                   1 0.75%float 0 _ _)).
  - repeat constructor.
  - cbn. lia.
Defined.

(** ** The values a form can hand to the script *)

Lemma position_nth (label : string) (opts : list string) (d : string) :
  label ∈ opts ->
  nth (default 0%nat (position label opts)) opts d = label.
Proof.
  induction opts as [|o opts IH]; intros Hin.
  - now apply elem_of_nil in Hin.
  - cbn. destruct (String.eqb_spec o label) as [E | Hne]; [exact E|].
    apply elem_of_cons in Hin as [E | Hin]; [congruence|].
    specialize (IH Hin).
    destruct (position label opts) as [i|] eqn:Hpos; cbn; [exact IH|].
    exfalso. clear IH. induction opts as [|o' opts IH']; cbn in *.
    + now apply elem_of_nil in Hin.
    + destruct (String.eqb_spec o' label) as [E | Hne']; [discriminate|].
      apply elem_of_cons in Hin as [E | Hin]; [congruence|].
      destruct (position label opts); [discriminate | now apply IH'].
Qed.

(** X15.  The values a form hands to the script are exactly those within
    the bounds and options of its widgets: whatever the user did they lie
    within them, and every such tuple of values is handed over, on a
    submitted form, when the user enters it. *)
Theorem form_range :
  (forall s, in_domain (read_form s)) /\
  (forall p, in_domain p ->
             read_form (session_of p) = p /\ submitted (session_of p) = true).
Proof.
  split.
  - intros s. unfold in_domain.
    repeat (split; [apply int_state_accepted; reflexivity|]).
    split; [apply (float_state_accepted s oldpeak_input); reflexivity|].
    intros f. apply field_value_in_options.
  - intros p (Hage & Hbps & Hchol & Hthalach & Hpeak & Hlabels).
    split; [|reflexivity].
    destruct p as [a sx c fb re ex bp ch th op sl ca_ tl].
    cbn [age sex cp fbs restecg exercise trestbps chol thalach oldpeak
         slope ca thal] in *.
    pose proof (Hlabels Sex) as L1. pose proof (Hlabels Cp) as L2.
    pose proof (Hlabels Fbs) as L3. pose proof (Hlabels Restecg) as L4.
    pose proof (Hlabels Exercise) as L5. pose proof (Hlabels Slope) as L6.
    pose proof (Hlabels Ca) as L7. pose proof (Hlabels Thal) as L8.
    cbn [field_value sex cp fbs restecg exercise slope ca thal] in *.
    unfold read_form, int_state, float_state, select_state.
    f_equal.
    + change ((if int_accepts age_input a then a else ii_value age_input) = a).
      now rewrite Hage.
    + exact (position_nth sx _ _ L1).
    + exact (position_nth c _ _ L2).
    + exact (position_nth fb _ _ L3).
    + exact (position_nth re _ _ L4).
    + exact (position_nth ex _ _ L5).
    + change ((if int_accepts trestbps_input bp then bp
               else ii_value trestbps_input) = bp).
      now rewrite Hbps.
    + change ((if int_accepts chol_input ch then ch
               else ii_value chol_input) = ch).
      now rewrite Hchol.
    + change ((if int_accepts thalach_input th then th
               else ii_value thalach_input) = th).
      now rewrite Hthalach.
    + change ((if float_accepts oldpeak_input op then op
               else fi_value oldpeak_input) = op).
      now rewrite Hpeak.
    + exact (position_nth sl _ _ L6).
    + exact (position_nth ca_ _ _ L7).
    + exact (position_nth tl _ _ L8).
Qed.

Lemma scenario_in_domain : in_domain scenario_input.
Proof.
  repeat (split; [reflexivity|]).
  intros f. destruct f; vm_compute;
    repeat (first [left | right]).
Qed.

Lemma form_range_witness :
  read_form (session_of scenario_input) = scenario_input /\
  submitted (session_of scenario_input) = true.
Proof.
  exact (proj2 form_range scenario_input scenario_in_domain).
Defined.

(** ** The report, read back *)

(** The two equations of string concatenation. *)
Lemma append_nil (t : string) : "" +:+ t = t.
Proof. reflexivity. Qed.

Lemma append_cons (a : Ascii.ascii) (s t : string) :
  String a s +:+ t = String a (s +:+ t).
Proof. reflexivity. Qed.

Lemma has_char_app (c : Ascii.ascii) (s t : string) :
  has_char c (s +:+ t) = has_char c s || has_char c t.
Proof.
  induction s as [|a s IH]; [reflexivity|].
  rewrite append_cons. simpl. now rewrite IH, orb_assoc.
Qed.

Lemma split_at_nonempty (c : Ascii.ascii) (s : string) : split_at c s <> [].
Proof.
  destruct s as [|a s]; cbn; [discriminate|].
  destruct (Ascii.eqb a c); [discriminate|].
  destruct (split_at c s); discriminate.
Qed.

(** A text without the character is a single piece. *)
Lemma split_at_clean (c : Ascii.ascii) (s : string) :
  has_char c s = false -> split_at c s = [s].
Proof.
  induction s as [|a s IH]; simpl; [reflexivity|].
  destruct (Ascii.eqb a c); simpl; [discriminate|].
  intros H. now rewrite (IH H).
Qed.

(** Cutting after a first piece without the character. *)
Lemma split_at_app (c : Ascii.ascii) (s rest : string) :
  has_char c s = false ->
  split_at c (s +:+ String c rest) = s :: split_at c rest.
Proof.
  induction s as [|a s IH].
  - intros _. rewrite append_nil. simpl. now rewrite Ascii.eqb_refl.
  - rewrite append_cons. simpl.
    destruct (Ascii.eqb a c); simpl; [discriminate|].
    intros H. now rewrite (IH H).
Qed.

(** Joining fields with a character and cutting at it gives the fields
    back, when no field holds the character. *)
Lemma split_at_join (c : Ascii.ascii) (fields : list string) :
  fields <> [] ->
  forallb (fun f => negb (has_char c f)) fields = true ->
  split_at c (join (String c "") fields) = fields.
Proof.
  induction fields as [|f fields IH]; [congruence|]. intros _.
  cbn [forallb]. rewrite andb_true_iff, negb_true_iff. intros [Hf Hrest].
  destruct fields as [|g fields].
  - cbn. now apply split_at_clean.
  - change (join (String c "") (f :: g :: fields))
      with (f +:+ String c (join (String c "") (g :: fields))).
    rewrite (split_at_app c f _ Hf). f_equal. now apply IH.
Qed.

Lemma has_char_join (c sep : Ascii.ascii) (fields : list string) :
  Ascii.eqb sep c = false ->
  forallb (fun f => negb (has_char c f)) fields = true ->
  has_char c (join (String sep "") fields) = false.
Proof.
  intros Hsep. induction fields as [|f fields IH]; [reflexivity|].
  cbn [forallb]. rewrite andb_true_iff, negb_true_iff. intros [Hf Hrest].
  destruct fields as [|g fields]; [exact Hf|].
  change (join (String sep "") (f :: g :: fields))
    with (f +:+ String sep (join (String sep "") (g :: fields))).
  rewrite has_char_app, Hf. cbn. rewrite Hsep. now apply IH.
Qed.

Lemma append_sep (c : Ascii.ascii) (s rest : string) :
  (s +:+ String c "") +:+ rest = s +:+ String c rest.
Proof.
  induction s as [|a s IH]; [reflexivity|].
  rewrite !append_cons. f_equal. exact IH.
Qed.

(** Lines that each end in a line feed are cut back into the lines, and
    one empty piece after the last line feed. *)
Lemma split_lines (lines : list string) :
  forallb (fun l => negb (has_char LF l)) lines = true ->
  split_at LF (String.concat "" (map (fun l => l +:+ String LF "") lines))
    = lines ++ [""].
Proof.
  induction lines as [|l lines IH]; [reflexivity|].
  cbn [forallb]. rewrite andb_true_iff, negb_true_iff. intros [Hl Hrest].
  specialize (IH Hrest).
  assert (E : String.concat ""
                (map (fun l => l +:+ String LF "") (l :: lines))
              = l +:+ String LF
                  (String.concat "" (map (fun l => l +:+ String LF "") lines))).
  { destruct lines as [|l' lines]; [reflexivity|].
    change (String.concat ""
              (map (fun l => l +:+ String LF "") (l :: l' :: lines)))
      with ((l +:+ String LF "") +:+
            String.concat ""
              (map (fun l => l +:+ String LF "") (l' :: lines))).
    apply append_sep. }
  rewrite E, (split_at_app LF l _ Hl), IH. reflexivity.
Qed.

(** What [to_csv] writes with line feeds is read back as the labels and
    the printed values, when every row has a value and no label or
    printed value needs quotes. *)
Lemma read_to_csv (repr : num -> string) (df : DataFrame) :
  columns df <> [] ->
  Forall (fun r => r <> []) (rows df) ->
  forallb plain (columns df) = true ->
  (forall n, plain (repr n) = true) ->
  read_csv (to_csv repr (String LF "") df)
    = columns df :: map (fun r => map repr r) (rows df).
Proof.
  intros Hcols Hrows Hplain Hrepr.
  assert (Hsplit : forall fs, forallb plain fs = true ->
            forallb (fun f => negb (has_char comma f)) fs = true /\
            forallb (fun f => negb (has_char LF f)) fs = true).
  { induction fs as [|f fs IH]; [now split|]. cbn [forallb].
    unfold plain at 1. rewrite !andb_true_iff. intros [[? ?] Hfs].
    destruct (IH Hfs). now repeat split. }
  assert (Hprinted : forall r, forallb plain (map repr r) = true).
  { induction r as [|n r IH]; [reflexivity|]. cbn. now rewrite Hrepr. }
  set (line := fun r : list num => join "," (map repr r)).
  assert (Hline : forall r, has_char LF (line r) = false).
  { intros r. apply (has_char_join LF comma); [reflexivity|].
    apply Hsplit, Hprinted. }
  unfold read_csv, to_csv.
  assert (Hmap : map (fun r => join "," (map repr r) +:+ String LF "") (rows df)
                 = map (fun l => l +:+ String LF "") (map line (rows df)))
    by (rewrite List.map_map; reflexivity).
  rewrite Hmap. clear Hmap.
  change (join "," (columns df) +:+ String LF "" +:+
          String.concat ""
            (map (fun l => l +:+ String LF "") (map line (rows df))))
    with (join "," (columns df) +:+ String LF
            (String.concat ""
               (map (fun l => l +:+ String LF "") (map line (rows df))))).
  rewrite split_at_app
      by (apply (has_char_join LF comma); [reflexivity | now apply Hsplit]).
  rewrite split_lines.
  - rewrite app_comm_cons, removelast_last. cbn [map]. f_equal.
    + apply (split_at_join comma); [exact Hcols | now apply Hsplit].
    + rewrite List.map_map. apply map_ext_Forall.
      eapply Forall_impl; [exact Hrows|]. cbn beta. intros r Hr.
      apply (split_at_join comma).
      * destruct r; [congruence | discriminate].
      * apply Hsplit, Hprinted.
  - clear -Hline. induction (rows df) as [|r rs IH]; [reflexivity|].
    cbn [map forallb]. now rewrite Hline, IH.
Qed.

(** ** C3: the file offered for download *)

(** C3.  In every submission with a successful prediction the script
    offers exactly one file, named heart_risk_report.csv with MIME type
    text/csv.  Its text is a header line with the 13 feature labels, then
    prediction, then risk_percent, separated by commas, followed by one
    line with the 13 encoded values of the form, the predicted label and
    round(probability * 100, 2), as pandas prints them, separated by
    commas; each line ends with the line terminator.  It is the CSV of a
    frame with these 15 columns and this one row, and, with line feeds and
    numbers printed without commas or line breaks, it reads back as
    exactly these two records. *)
Theorem report_download (h : host) (s : session) (X : DataFrame)
    (prediction : Z) (probability : float) :
  successful_prediction h s X prediction probability ->
  let p := read_form s in
  let show := repr_num h in
  let risk_percent := py_round h (PrimFloat.mul probability 100%float) 2 in
  let df := report_df h X prediction probability in
  exists c_cp c_restecg c_exang c_slope c_ca c_thal,
    field_code Cp (cp p) = Returns c_cp /\
    field_code Restecg (restecg p) = Returns c_restecg /\
    field_code Exercise (exercise p) = Returns c_exang /\
    field_code Slope (slope p) = Returns c_slope /\
    field_code Ca (ca p) = Returns c_ca /\
    field_code Thal (thal p) = Returns c_thal /\
    columns df =
      ["age"; "trestbps"; "chol"; "thalach"; "oldpeak";
       "encoded_sex"; "encoded_cp"; "encoded_fbs";
       "encoded_restecg"; "encoded_exang"; "encoded_slope";
       "encoded_ca"; "encoded_thal"; "prediction"; "risk_percent"] /\
    rows df =
      [[NInt (age p); NInt (trestbps p); NInt (chol p); NInt (thalach p);
        NFloat (oldpeak p);
        NInt (sex_code (sex p)); NInt c_cp; NInt (fbs_code (fbs p));
        NInt c_restecg; NInt c_exang; NInt c_slope; NInt c_ca; NInt c_thal;
        NInt prediction; NFloat risk_percent]] /\
    to_csv show (linesep h) df =
      "age,trestbps,chol,thalach,oldpeak,encoded_sex,encoded_cp,encoded_fbs,encoded_restecg,encoded_exang,encoded_slope,encoded_ca,encoded_thal,prediction,risk_percent"
        +:+ linesep h +:+
      (show (NInt (age p)) +:+ "," +:+ show (NInt (trestbps p)) +:+ "," +:+
       show (NInt (chol p)) +:+ "," +:+ show (NInt (thalach p)) +:+ "," +:+
       show (NFloat (oldpeak p)) +:+ "," +:+
       show (NInt (sex_code (sex p))) +:+ "," +:+ show (NInt c_cp) +:+ "," +:+
       show (NInt (fbs_code (fbs p))) +:+ "," +:+
       show (NInt c_restecg) +:+ "," +:+ show (NInt c_exang) +:+ "," +:+
       show (NInt c_slope) +:+ "," +:+ show (NInt c_ca) +:+ "," +:+
       show (NInt c_thal) +:+ "," +:+
       show (NInt prediction) +:+ "," +:+ show (NFloat risk_percent))
        +:+ linesep h /\
    downloads (trace (app h s)) =
      [(to_csv show (linesep h) df, "heart_risk_report.csv", "text/csv")] /\
    (linesep h = String LF "" ->
     (forall n, plain (show n) = true) ->
     read_csv (to_csv show (linesep h) df) =
       [["age"; "trestbps"; "chol"; "thalach"; "oldpeak";
         "encoded_sex"; "encoded_cp"; "encoded_fbs";
         "encoded_restecg"; "encoded_exang"; "encoded_slope";
         "encoded_ca"; "encoded_thal"; "prediction"; "risk_percent"];
        [show (NInt (age p)); show (NInt (trestbps p)); show (NInt (chol p));
         show (NInt (thalach p)); show (NFloat (oldpeak p));
         show (NInt (sex_code (sex p))); show (NInt c_cp);
         show (NInt (fbs_code (fbs p)));
         show (NInt c_restecg); show (NInt c_exang); show (NInt c_slope);
         show (NInt c_ca); show (NInt c_thal);
         show (NInt prediction); show (NFloat risk_percent)]]).
Proof.
  intros Hok. cbv zeta.
  pose proof Hok as (_ & HX & _).
  destruct (input_data_shape _ _ HX) as (row & Henc & _ & ->).
  destruct (encode_inv _ _ Henc)
    as (c1 & c2 & c3 & c4 & c5 & c6 & H1 & H2 & H3 & H4 & H5 & H6 & ->).
  exists c1, c2, c3, c4, c5, c6.
  do 6 (split; [assumption|]).
  do 3 (split; [reflexivity|]).
  split.
  - rewrite (app_success h s _ _ _ Hok).
    unfold trace, result_calls. cbn [fst].
    destruct (verdict_calls prediction) as [-> | ->]; reflexivity.
  - intros Hnl Hplain. rewrite Hnl.
    rewrite read_to_csv; try reflexivity; try assumption.
    + discriminate.
    + repeat constructor. discriminate.
Qed.

Lemma report_download_witness :
  exists data,
    downloads (trace (app demo_host scenario_session)) =
      [(data, "heart_risk_report.csv", "text/csv")] /\
    data =
      "age,trestbps,chol,thalach,oldpeak,encoded_sex,encoded_cp,encoded_fbs,encoded_restecg,encoded_exang,encoded_slope,encoded_ca,encoded_thal,prediction,risk_percent"
        +:+ String LF "" +:+ "i,i,i,i,f,i,i,i,i,i,i,i,i,i,f" +:+ String LF "".
Proof.
  destruct (report_download demo_host scenario_session _ 1 0.75%float
              demo_successful)
    as (c1 & c2 & c3 & c4 & c5 & c6 & _ & _ & _ & _ & _ & _ & _ & _
        & Htext & Hdl & _).
  eexists. split; [exact Hdl|]. rewrite Htext. reflexivity.
Defined.

(** X16.  On a host that ends lines with a line feed and prints numbers
    without commas or line breaks, the file offered after a successful
    prediction reads back as two records: the 15 column labels, and the 13
    printed encoded values followed by the printed label and the printed
    round(probability * 100, 2). *)
Theorem report_reads_back (h : host) (s : session) (X : DataFrame)
    (prediction : Z) (probability : float) :
  successful_prediction h s X prediction probability ->
  linesep h = String LF "" ->
  (forall n, plain (repr_num h n) = true) ->
  exists row data,
    encode (read_form s) = Returns row /\
    downloads (trace (app h s)) =
      [(data, "heart_risk_report.csv", "text/csv")] /\
    read_csv data =
      [feature_columns ++ ["prediction"; "risk_percent"];
       map (repr_num h)
         (row ++ [NInt prediction;
                  NFloat (py_round h (PrimFloat.mul probability 100%float) 2)])].
Proof.
  intros Hok Hnl Hrepr.
  pose proof Hok as (_ & HX & _).
  destruct (input_data_shape _ _ HX) as (row & Henc & _ & ->).
  destruct (encode_shape _ _ Henc) as (c1 & c2 & c3 & c4 & c5 & c6 & Hrow).
  exists row.
  exists (to_csv (repr_num h) (linesep h)
            (report_df h (mkDataFrame feature_columns [row])
               prediction probability)).
  split; [exact Henc|]. split.
  - rewrite (app_success h s _ _ _ Hok).
    unfold trace, result_calls. cbn [fst].
    destruct (verdict_calls prediction) as [-> | ->]; reflexivity.
  - rewrite Hnl, Hrow. rewrite read_to_csv; try reflexivity; try assumption.
    + discriminate.
    + repeat constructor. discriminate.
Qed.

Lemma report_reads_back_witness :
  exists row data,
    encode (read_form scenario_session) = Returns row /\
    downloads (trace (app demo_host scenario_session)) =
      [(data, "heart_risk_report.csv", "text/csv")] /\
    read_csv data =
      [feature_columns ++ ["prediction"; "risk_percent"];
       map (repr_num demo_host)
         (row ++ [NInt 1;
                  NFloat (py_round demo_host
                            (PrimFloat.mul 0.75%float 100%float) 2)])].
Proof.
  apply (report_reads_back demo_host scenario_session _ 1 0.75%float
           demo_successful).
  - reflexivity.
  - intros n. destruct n; reflexivity.
Defined.
